(** * Restaurant App API: the handlers of [main.py] over a model of the
    document store.

    Documents are Python dicts with string keys, embedded as [gmap string
    value]; the handlers run in a state-and-exception monad over the process
    state (the store handle [db] and the wall clock). *)

From Stdlib Require Import ZArith NArith QArith String Ascii List.
From stdpp Require Import base option numbers strings pretty list gmap fin_maps.

Local Open Scope string_scope.

(** ** Values held by document fields *)

Global Instance Q_eq_dec : EqDecision Q.
Proof. solve_decision. Defined.

(** The Python values that the program puts into, or reads from, a
    document.  Floats are carried by the rational their literal denotes (the
    program does no arithmetic on them), datetimes by a timestamp, ObjectIds
    by a number, and arrays are the string arrays of [tags]. *)
Inductive value :=
  | VNone
  | VBool (b : bool)
  | VStr (s : string)
  | VFloat (x : Q)
  | VDatetime (t : Z)
  | VObjectId (o : N)
  | VList (l : list string).

Global Instance value_eq_dec : EqDecision value.
Proof. solve_decision. Defined.

(** [isinstance(v, ObjectId)] *)
Definition is_ObjectId (v : value) : bool :=
  match v with VObjectId _ => true | _ => false end.

(** What the program takes from the libraries it imports ([datetime],
    [bson]) and from the interpreter's [str]/[repr], without fixing it. *)
Class Runtime := {
  (** [str(x)] for a float *)
  str_float : Q → string;
  (** [str(t)] for a datetime *)
  str_datetime : Z → string;
  (** [t.isoformat()] *)
  isoformat : Z → string;
  (** [repr(s)] for a string, as it appears inside [str(list)] *)
  repr_str : string → string;
  (** [str(o)] for an ObjectId *)
  str_ObjectId : N → string;
  (** [ObjectId.is_valid(s)] *)
  ObjectId_is_valid : string → bool;
  (** [ObjectId(s)] as a usable query value; [None] when building it, or the
      query made with it, raises *)
  ObjectId_parse : string → option N;
  (** the n-th reading of [datetime.now(timezone.utc)] since the process
      started *)
  utcnow : nat → Z;
}.

(** ** Exceptions and results *)

Inductive exn :=
  | HTTPException (status_code : nat) (detail : string)
  | KeyError (key : string)
  | TypeError (msg : string)
  | ValidationError (field : string)
  | InvalidId (oid : string).

Inductive result (A : Type) :=
  | Ok (a : A)
  | Raise (e : exn).
Global Arguments Ok {A} a.
Global Arguments Raise {A} e.

Global Instance result_ret : MRet result := λ A a, Ok a.
Global Instance result_bind : MBind result := λ A B f m,
  match m with Ok a => f a | Raise e => Raise e end.
Global Instance result_fmap : FMap result := λ A B f m,
  match m with Ok a => Ok (f a) | Raise e => Raise e end.

(** The status the server answers with: an [HTTPException] carries its own,
    every other exception escaping a handler is a 500. *)
Definition status_of (e : exn) : nat :=
  match e with HTTPException c _ => c | _ => 500 end.

(** ** Dict operations *)

(** [d[k]] *)
Definition getitem (d : gmap string value) (k : string) : result value :=
  match d !! k with Some v => Ok v | None => Raise (KeyError k) end.

(** [d.pop(k)]: the value and the dict without the key *)
Definition dict_pop (k : string) (d : gmap string value)
  : result (value * gmap string value) :=
  match d !! k with
  | Some v => Ok (v, delete k d)
  | None => Raise (KeyError k)
  end.

(** [bool(d)] for a dict *)
Definition dict_truthy (d : gmap string value) : bool :=
  bool_decide (d ≠ ∅).

(** [bool(x)] for the result of [find_one]: [None] and the empty dict are
    false. *)
Definition truthy (x : option (gmap string value)) : bool :=
  match x with Some d => dict_truthy d | None => false end.

(** ** Schemas *)

Record SendOtpRequest := { send_phone : string }.

Record VerifyOtpRequest := { verify_phone : string; verify_otp_code : string }.

(** The body [{"success": True, "user": ...}] that [verify_otp] returns. *)
Record VerifyOtpResponse := {
  verify_success : bool;
  verify_user : option (gmap string value);
}.

Module RestaurantOut.
Record t := Make {
  id : string;
  name : string;
  description : option string;
  address : option string;
  image : option string;
  rating : option Q;
  cuisine : option string;
}.
End RestaurantOut.

Module ProductOut.
Record t := Make {
  id : string;
  title : string;
  description : option string;
  price : Q;
  image : option string;
  restaurant_id : option string;
  tags : option (list string);
}.
End ProductOut.

(** Validation of one keyword argument of a response model: a required
    field must be present at its declared type, an [Optional] one may be
    absent or [None].  Coercions between types are not modelled: every
    document the program writes holds each field at its declared type. *)
Definition field_str (d : gmap string value) (k : string) : result string :=
  match d !! k with
  | Some (VStr s) => Ok s
  | _ => Raise (ValidationError k)
  end.

Definition field_float (d : gmap string value) (k : string) : result Q :=
  match d !! k with
  | Some (VFloat x) => Ok x
  | _ => Raise (ValidationError k)
  end.

Definition field_opt_str (d : gmap string value) (k : string)
  : result (option string) :=
  match d !! k with
  | None | Some VNone => Ok None
  | Some (VStr s) => Ok (Some s)
  | Some _ => Raise (ValidationError k)
  end.

Definition field_opt_float (d : gmap string value) (k : string)
  : result (option Q) :=
  match d !! k with
  | None | Some VNone => Ok None
  | Some (VFloat x) => Ok (Some x)
  | Some _ => Raise (ValidationError k)
  end.

(** [tags: Optional[List[str]] = []] *)
Definition field_tags (d : gmap string value) (k : string)
  : result (option (list string)) :=
  match d !! k with
  | None => Ok (Some [])
  | Some VNone => Ok None
  | Some (VList l) => Ok (Some l)
  | Some _ => Raise (ValidationError k)
  end.

(** The constructor [RestaurantOut], called with the items of [d] as
    keyword arguments *)
Definition new_RestaurantOut (d : gmap string value) : result RestaurantOut.t :=
  id ← field_str d "id";
  name ← field_str d "name";
  description ← field_opt_str d "description";
  address ← field_opt_str d "address";
  image ← field_opt_str d "image";
  rating ← field_opt_float d "rating";
  cuisine ← field_opt_str d "cuisine";
  Ok (RestaurantOut.Make id name description address image rating cuisine).

(** The constructor [ProductOut], called with the items of [d] as keyword
    arguments *)
Definition new_ProductOut (d : gmap string value) : result ProductOut.t :=
  id ← field_str d "id";
  title ← field_str d "title";
  description ← field_opt_str d "description";
  price ← field_float d "price";
  image ← field_opt_str d "image";
  restaurant_id ← field_opt_str d "restaurant_id";
  tags ← field_tags d "tags";
  Ok (ProductOut.Make id title description price image restaurant_id tags).

(** ** State and exceptions *)

(** A computation over a state [S] that returns or raises; what it wrote
    before raising stays written. *)
Definition state_exn (S A : Type) : Type := S → result A * S.

Global Instance state_exn_ret {S} : MRet (state_exn S) := λ A a s, (Ok a, s).
Global Instance state_exn_bind {S} : MBind (state_exn S) := λ A B f m s,
  match m s with
  | (Ok a, s') => f a s'
  | (Raise e, s') => (Raise e, s')
  end.

Definition raise {S A} (e : exn) : state_exn S A := λ s, (Raise e, s).

(** A pure computation that may raise, run inside a stateful one. *)
Definition lift {S A} (r : result A) : state_exn S A := λ s, (r, s).

(** [try: m except Exception: h] *)
Definition try_except {S A} (m h : state_exn S A) : state_exn S A := λ s,
  match m s with
  | (Ok a, s') => (Ok a, s')
  | (Raise _, s') => h s'
  end.

(** [for x in xs], collecting the results *)
Fixpoint for_each {S A B} (f : A → state_exn S B) (xs : list A)
  : state_exn S (list B) :=
  match xs with
  | [] => mret []
  | x :: xs' => y ← f x; ys ← for_each f xs'; mret (y :: ys)
  end.

(** ** Strings *)

(** [c.isspace()] for a code point below 256 *)
Definition is_space (c : ascii) : bool :=
  let n := nat_of_ascii c in
  ((9 <=? n) && (n <=? 13) || (28 <=? n) && (n <=? 32)
   || (n =? 133) || (n =? 160))%nat.

Fixpoint lstrip (s : string) : string :=
  match s with
  | String c s' => if is_space c then lstrip s' else s
  | EmptyString => EmptyString
  end.

Definition rstrip (s : string) : string :=
  String.rev (lstrip (String.rev s)).

(** [s.strip()] *)
Definition strip (s : string) : string := rstrip (lstrip s).

(** ** The store and the process state *)

(** Modelled from the spec: the store handle [db] comes from the module
    [database], which is not among the sources.  Following sections 3 and
    4.1 of the specification it is either absent ([None]) or gives named
    collections of documents with count, find by filter, insert and
    update-one-with-field-set; identifiers are generated by the store and a
    collection that was never written is empty.  A collection keeps its
    documents in insertion order. *)
Record database := Database {
  colls : gmap string (list (gmap string value));
  next_oid : N;
}.

(** The process state: the global [db] and the number of clock readings
    made so far. *)
Record world := World {
  db : option database;
  ticks : nat;
}.

Abbreviation M := (state_exn world).

(** The global [db], as the guards [if db is None] read it. *)
Definition get_db : M (option database) := λ w, (Ok (db w), w).

(** ** Store operations *)

(** Modelled from the spec: find by filter is an exact match; a filter
    document [{k1: v1, ...}] matches the documents that hold exactly these
    values under these keys. *)
Definition matches (flt : list (string * value)) (d : gmap string value) : bool :=
  forallb (λ kv, bool_decide (d !! kv.1 = Some kv.2)) flt.

(** Modelled from the spec: the field set [{"$set": {k1: v1, ...}}] of
    update-one. *)
Definition apply_set (sets : list (string * value)) (d : gmap string value)
  : gmap string value :=
  foldl (λ d kv, <[kv.1 := kv.2]> d) d sets.

(** Modelled from the spec: update-one writes to the first document that
    matches, if there is one. *)
Fixpoint update_first (flt sets : list (string * value))
    (l : list (gmap string value)) : list (gmap string value) :=
  match l with
  | [] => []
  | d :: l' =>
      if matches flt d then apply_set sets d :: l'
      else d :: update_first flt sets l'
  end.

(** Modelled from the spec: identifiers are generated by the store; each
    new document gets the next one.  The documents the program inserts
    carry no identifier of their own. *)
Fixpoint assign_ids (n : N) (docs : list (gmap string value))
  : list (gmap string value) :=
  match docs with
  | [] => []
  | d :: docs' => <["_id" := VObjectId n]> d :: assign_ids (N.succ n) docs'
  end.

(** Modelled from the spec: [db[name]], an operation on a collection of
    the store; subscripting [None] raises. *)
Definition on_db {A} (f : database → result A * database) : M A := λ w,
  match db w with
  | None => (Raise (TypeError "'NoneType' object is not subscriptable"), w)
  | Some st => let '(r, st') := f st in (r, World (Some st') (ticks w))
  end.

(** Modelled from the spec: the documents of a named collection, none if
    it was never written. *)
Definition collection (st : database) (name : string)
  : list (gmap string value) :=
  default [] (colls st !! name).

(** Modelled from the spec: [db[name].find(flt)], read to the end. *)
Definition find (name : string) (flt : list (string * value))
  : M (list (gmap string value)) :=
  on_db (λ st, (Ok (filter (λ d, matches flt d = true) (collection st name)), st)).

(** Modelled from the spec: [db[name].find_one(flt)], the first match. *)
Definition find_one (name : string) (flt : list (string * value))
  : M (option (gmap string value)) :=
  on_db (λ st, (Ok (List.find (matches flt) (collection st name)), st)).

(** Modelled from the spec: [db[name].count_documents({})]. *)
Definition count_documents (name : string) : M nat :=
  on_db (λ st, (Ok (length (collection st name)), st)).

(** Modelled from the spec: [db[name].insert_many(docs)], appending the
    documents in order. *)
Definition insert_many (name : string) (docs : list (gmap string value))
  : M unit :=
  on_db (λ st,
    (Ok tt,
     Database (<[name := (collection st name ++ assign_ids (next_oid st) docs)%list]>
                 (colls st))
              (next_oid st + N.of_nat (length docs)))).

(** Modelled from the spec: [db[name].insert_one(doc)]. *)
Definition insert_one (name : string) (doc : gmap string value) : M unit :=
  insert_many name [doc].

(** Modelled from the spec: [db[name].update_one(flt, {"$set": sets})]. *)
Definition update_one (name : string) (flt sets : list (string * value))
  : M unit :=
  on_db (λ st,
    (Ok tt,
     Database (<[name := update_first flt sets (collection st name)]> (colls st))
              (next_oid st))).

(** ** Helpers of the seed routine *)

(** A list cannot be a dict key. *)
Definition hashable (v : value) : bool :=
  match v with VList _ => false | _ => true end.

(** [{r["name"]: r["_id"] for r in rest_docs}]: the dict [rest_ids], with
    arbitrary values as keys, as the list of its bindings in the order the
    comprehension made them. *)
Fixpoint name_to_id (rest_docs : list (gmap string value))
  : result (list (value * value)) :=
  match rest_docs with
  | [] => Ok []
  | r :: rest =>
      k ← getitem r "name";
      v ← getitem r "_id";
      if hashable k then
        tl ← name_to_id rest;
        Ok ((k, v) :: tl)
      else Raise (TypeError "unhashable type: 'list'")
  end.

(** [rest_ids.get(k)]: a later binding of a key replaced the earlier ones,
    so this is the last binding of [k], and [None] when there is none. *)
Definition dict_get (k : value) (rest_ids : list (value * value)) : value :=
  match List.find (λ kv, bool_decide (kv.1 = k)) (reverse rest_ids) with
  | Some kv => kv.2
  | None => VNone
  end.

(** ** Dict objects on the heap *)

(** Python passes dicts by reference.  To speak about what a call does to
    the dict it was given, dict objects live in a heap and a dict variable
    holds a location. *)
Abbreviation heap := (gmap positive (gmap string value)).

(** The object behind a reference; a reference is never dangling in
    Python, reading one that is raises here. *)
Definition deref (l : positive) : state_exn heap (gmap string value) := λ h,
  match h !! l with
  | Some d => (Ok d, h)
  | None => (Raise (TypeError "dangling reference"), h)
  end.

Definition store (l : positive) (d : gmap string value) : state_exn heap unit :=
  λ h, (Ok tt, <[l := d]> h).

Definition alloc (d : gmap string value) : state_exn heap positive := λ h,
  let l := fresh (dom h) in (Ok l, <[l := d]> h).

(** [bool(doc)] *)
Definition ref_truthy (l : positive) : state_exn heap bool :=
  d ← deref l; mret (dict_truthy d).

(** [doc.copy()]: a new object with the same items *)
Definition ref_copy (l : positive) : state_exn heap positive :=
  d ← deref l; alloc d.

(** [k in d] *)
Definition ref_contains (l : positive) (k : string) : state_exn heap bool :=
  d ← deref l; mret (bool_decide (is_Some (d !! k))).

(** [d.pop(k)], in place *)
Definition ref_pop (l : positive) (k : string) : state_exn heap value :=
  d ← deref l; p ← lift (dict_pop k d); store l p.2;; mret p.1.

(** [d[k] = v], in place *)
Definition ref_setitem (l : positive) (k : string) (v : value)
  : state_exn heap unit :=
  d ← deref l; store l (<[k := v]> d).

(** [list(d.items())] *)
Definition ref_items (l : positive) : state_exn heap (list (string * value)) :=
  d ← deref l; mret (map_to_list d).

Section Program.
Context `{RT : Runtime}.

(** [str(v)] *)
Definition py_str (v : value) : string :=
  match v with
  | VNone => "None"
  | VBool true => "True"
  | VBool false => "False"
  | VStr s => s
  | VFloat x => str_float x
  | VDatetime t => str_datetime t
  | VObjectId o => str_ObjectId o
  | VList l => "[" ++ String.concat ", " (repr_str <$> l) ++ "]"
  end.

(** ** Utils *)

(** The loop [for k, v in list(d.items()): if isinstance(v, ObjectId):
    d[k] = str(v)], over the snapshot [items]. *)
Definition stringify_items (items : list (string * value))
    (d : gmap string value) : gmap string value :=
  foldl (λ d kv, if is_ObjectId kv.2 then <[kv.1 := VStr (py_str kv.2)]> d else d)
        d items.

(** [to_str_id(doc)]: an empty dict is returned as it is; otherwise, on a
    copy, [_id] is popped and its string stored under [id], and every
    ObjectId among the values is replaced by its string. *)
Definition to_str_id (doc : gmap string value) : result (gmap string value) :=
  if negb (dict_truthy doc) then Ok doc else
  let d := doc in
  d ← (if bool_decide (is_Some (d !! "_id")) then
         p ← dict_pop "_id" d;
         Ok (<["id" := VStr (py_str p.1)]> p.2)
       else Ok d);
  Ok (stringify_items (map_to_list d) d).

(** The call sites hand [to_str_id] the result of [find_one], which may be
    [None]; [not None] holds, so [None] is returned as it is. *)
Definition to_str_id_opt (doc : option (gmap string value))
  : result (option (gmap string value)) :=
  match doc with
  | None => Ok None
  | Some d => Some <$> to_str_id d
  end.

(** [to_str_id] once more, statement by statement on dict objects: [doc]
    and [d] are references, [pop] and item assignment write to the object
    behind [d]. *)
Definition to_str_id_ref (doc : positive) : state_exn heap positive :=
  b ← ref_truthy doc;
  if negb b then mret doc else
  d ← ref_copy doc;
  c ← ref_contains d "_id";
  (if c : bool then
     v ← ref_pop d "_id";
     ref_setitem d "id" (VStr (py_str v))
   else mret tt);;
  items ← ref_items d;
  for_each (λ kv : string * value,
              if is_ObjectId kv.2
              then ref_setitem d kv.1 (VStr (py_str kv.2))
              else mret tt) items;;
  mret d.

(** ** The clock *)

(** [datetime.now(timezone.utc)] *)
Definition datetime_now : M Z := λ w,
  (Ok (utcnow (ticks w)), World (db w) (S (ticks w))).

(** ** Startup seed *)

(** The list [restaurants] of [seed_data], given the four clock readings
    its dict literals make. *)
Definition restaurants (c1 u1 c2 u2 : Z) : list (gmap string value) := [
  {[ "name" := VStr "Spice Garden";
     "description" := VStr "Authentic Indian cuisine with a modern twist";
     "address" := VStr "123 Curry Ave";
     "image" := VStr "https://images.unsplash.com/photo-1544025162-d76694265947?q=80&w=1600&auto=format&fit=crop";
     "rating" := VFloat 4.6;
     "cuisine" := VStr "Indian";
     "created_at" := VDatetime c1;
     "updated_at" := VDatetime u1 ]};
  {[ "name" := VStr "Pasta Piazza";
     "description" := VStr "Fresh handmade pastas and rustic sauces";
     "address" := VStr "45 Roma Street";
     "image" := VStr "https://images.unsplash.com/photo-1523986371872-9d3ba2e2f642?q=80&w=1600&auto=format&fit=crop";
     "rating" := VFloat 4.7;
     "cuisine" := VStr "Italian";
     "created_at" := VDatetime c2;
     "updated_at" := VDatetime u2 ]} ].

(** The list [products] of [seed_data], given [rest_ids] and the six clock
    readings. *)
Definition products (rest_ids : list (value * value)) (c1 u1 c2 u2 c3 u3 : Z)
  : list (gmap string value) := [
  {[ "title" := VStr "Butter Chicken";
     "description" := VStr "Creamy tomato sauce with tender chicken";
     "price" := VFloat 12.99;
     "image" := VStr "https://images.unsplash.com/photo-1604909052743-88e0b01e6e8b?q=80&w=1600&auto=format&fit=crop";
     "restaurant_id" := VStr (py_str (dict_get (VStr "Spice Garden") rest_ids));
     "tags" := VList ["spicy"; "non-veg"];
     "created_at" := VDatetime c1;
     "updated_at" := VDatetime u1 ]};
  {[ "title" := VStr "Paneer Tikka";
     "description" := VStr "Grilled cottage cheese with spices";
     "price" := VFloat 9.5;
     "image" := VStr "https://images.unsplash.com/photo-1625944528146-1b02d4ca9d24?q=80&w=1600&auto=format&fit=crop";
     "restaurant_id" := VStr (py_str (dict_get (VStr "Spice Garden") rest_ids));
     "tags" := VList ["veg"; "grill"];
     "created_at" := VDatetime c2;
     "updated_at" := VDatetime u2 ]};
  {[ "title" := VStr "Penne Arrabbiata";
     "description" := VStr "Spicy tomato sauce with garlic and chili";
     "price" := VFloat 10.99;
     "image" := VStr "https://images.unsplash.com/photo-1473093295043-cdd812d0e601?q=80&w=1600&auto=format&fit=crop";
     "restaurant_id" := VStr (py_str (dict_get (VStr "Pasta Piazza") rest_ids));
     "tags" := VList ["veg"; "pasta"];
     "created_at" := VDatetime c3;
     "updated_at" := VDatetime u3 ]} ].

Definition seed_data : M unit :=
  d ← get_db;
  if d is None then mret tt else
  n ← count_documents "restaurant";
  (if (n =? 0)%nat then
     c1 ← datetime_now; u1 ← datetime_now;
     c2 ← datetime_now; u2 ← datetime_now;
     insert_many "restaurant" (restaurants c1 u1 c2 u2)
   else mret tt);;
  m ← count_documents "product";
  if (m =? 0)%nat then
    rest_docs ← find "restaurant" [];
    rest_ids ← lift (name_to_id rest_docs);
    c1 ← datetime_now; u1 ← datetime_now;
    c2 ← datetime_now; u2 ← datetime_now;
    c3 ← datetime_now; u3 ← datetime_now;
    insert_many "product" (products rest_ids c1 u1 c2 u2 c3 u3)
  else mret tt.

(** ** Auth (phone + OTP demo) *)

Definition send_otp (payload : SendOtpRequest) : M (gmap string value) :=
  d ← get_db;
  if d is None then raise (HTTPException 500 "Database not configured") else
  let phone := strip (send_phone payload) in
  if bool_decide (phone = "") then raise (HTTPException 400 "Phone is required") else
  let otp := "1234" in
  user ← find_one "user" [("phone", VStr phone)];
  t ← datetime_now;
  let now := isoformat t in
  (if truthy user then
     id ← lift (getitem (default ∅ user) "_id");
     update_one "user" [("_id", id)]
       [("is_verified", VBool false); ("last_login", VStr now)]
   else
     c ← datetime_now; u ← datetime_now;
     insert_one "user"
       {[ "phone" := VStr phone;
          "name" := VNone;
          "is_verified" := VBool false;
          "last_login" := VStr now;
          "created_at" := VDatetime c;
          "updated_at" := VDatetime u ]});;
  mret {[ "success" := VBool true;
          "otp" := VStr otp;
          "message" := VStr "OTP generated. Use 1234 for demo." ]}.

Definition verify_otp (payload : VerifyOtpRequest) : M VerifyOtpResponse :=
  d ← get_db;
  if d is None then raise (HTTPException 500 "Database not configured") else
  let phone := strip (verify_phone payload) in
  if bool_decide (verify_otp_code payload ≠ "1234")
  then raise (HTTPException 400 "Invalid OTP") else
  user ← find_one "user" [("phone", VStr phone)];
  if negb (truthy user) then raise (HTTPException 404 "User not found") else
  id ← lift (getitem (default ∅ user) "_id");
  t ← datetime_now;
  update_one "user" [("_id", id)]
    [("is_verified", VBool true); ("updated_at", VDatetime t)];;
  id' ← lift (getitem (default ∅ user) "_id");
  found ← find_one "user" [("_id", id')];
  u ← lift (to_str_id_opt found);
  mret {| verify_success := true; verify_user := u |}.

(** ** Restaurants and products *)

Definition list_restaurants : M (list RestaurantOut.t) :=
  d ← get_db;
  if d is None then mret [] else
  docs ← find "restaurant" [];
  for_each (λ d, lift (to_str_id d ≫= new_RestaurantOut)) docs.

(** The lookup of the detail handlers: by the parsed ObjectId when the path
    identifier is a valid one, by the string itself otherwise; whatever is
    raised on the way leaves [doc = None]. *)
Definition find_by_path_id (name : string) (path_id : string)
  : M (option (gmap string value)) :=
  try_except
    (if ObjectId_is_valid path_id then
       o ← lift (match ObjectId_parse path_id with
                 | Some o => Ok o
                 | None => Raise (InvalidId path_id)
                 end);
       find_one name [("_id", VObjectId o)]
     else find_one name [("_id", VStr path_id)])
    (mret None).

Definition get_restaurant (restaurant_id : string) : M RestaurantOut.t :=
  d ← get_db;
  if d is None then raise (HTTPException 404 "Not found") else
  doc ← find_by_path_id "restaurant" restaurant_id;
  if negb (truthy doc) then raise (HTTPException 404 "Restaurant not found") else
  lift (to_str_id (default ∅ doc) ≫= new_RestaurantOut).

Definition get_restaurant_products (restaurant_id : string)
  : M (list ProductOut.t) :=
  d ← get_db;
  if d is None then mret [] else
  docs ← find "product" [("restaurant_id", VStr restaurant_id)];
  for_each (λ d, lift (to_str_id d ≫= new_ProductOut)) docs.

Definition list_products : M (list ProductOut.t) :=
  d ← get_db;
  if d is None then mret [] else
  docs ← find "product" [];
  for_each (λ d, lift (to_str_id d ≫= new_ProductOut)) docs.

Definition get_product (product_id : string) : M ProductOut.t :=
  d ← get_db;
  if d is None then raise (HTTPException 404 "Not found") else
  doc ← find_by_path_id "product" product_id;
  if negb (truthy doc) then raise (HTTPException 404 "Product not found") else
  lift (to_str_id (default ∅ doc) ≫= new_ProductOut).

(** ** Vocabulary of the statements *)

(** What [to_str_id] makes of one field value. *)
Definition stringify (v : value) : value :=
  if is_ObjectId v then VStr (py_str v) else v.

(** The document with [_id] renamed to [id] and stringified. *)
Definition rename_id (d : gmap string value) : gmap string value :=
  match d !! "_id" with
  | Some v => <["id" := VStr (py_str v)]> (delete "_id" d)
  | None => d
  end.

(** The path identifier [s] names the document [d]: as the literal string,
    or as the ObjectId it parses to. *)
Definition id_matches (s : string) (d : gmap string value) : Prop :=
  d !! "_id" = Some (VStr s)
  ∨ ∃ o, ObjectId_parse s = Some o ∧ d !! "_id" = Some (VObjectId o).

End Program.

(** The identifiers of a collection, in order. *)
Definition ids (c : list (gmap string value)) : list (option value) :=
  (λ d, d !! "_id") <$> c.

(** A stored document has an identifier, and one that the store generated
    lies below the store's next one. *)
Definition id_issued (next : N) (d : gmap string value) : Prop :=
  match d !! "_id" with
  | Some (VObjectId o) => (o < next)%N
  | Some _ => True
  | None => False
  end.

(** What the store guarantees of a collection: every document has an
    identifier, identifiers are unique in the collection, and the next
    identifier is a new one. *)
Definition coll_wf (st : database) (name : string) : Prop :=
  Forall (id_issued (next_oid st)) (collection st name)
  ∧ NoDup (ids (collection st name)).

(** The store's guarantees hold of every collection of the process state. *)
Definition store_wf (w : world) : Prop :=
  ∀ st name, db w = Some st → coll_wf st name.

(** A computation keeps a property of the process state, whether it returns
    or raises. *)
Definition preserves {A} (I : world → Prop) (m : M A) : Prop :=
  ∀ w, I w → I (m w).2.

(** [i] is the first index of [l] whose element satisfies [f]. *)
Definition first_at {A} (f : A → bool) (l : list A) (i : nat) : Prop :=
  ∃ x, l !! i = Some x ∧ f x = true
       ∧ ∀ j y, (j < i)%nat → l !! j = Some y → f y = false.

(** The answer of [send_otp]. *)
Definition otp_sent : gmap string value :=
  {[ "success" := VBool true;
     "otp" := VStr "1234";
     "message" := VStr "OTP generated. Use 1234 for demo." ]}.

(** The users registered under a phone number. *)
Definition users_with_phone (phone : string) (st : database)
  : list (gmap string value) :=
  filter (λ d, d !! "phone" = Some (VStr phone)) (collection st "user").

(** ** A concrete runtime *)

(** A runtime on which the handlers can be run on concrete inputs.
    Identifiers print as 24 hexadecimal digits and are parsed back from
    them, as [bson] does; times and floats print as the numbers that carry
    them, and the clock advances by one between readings. *)
Definition hex_digit (n : N) : ascii :=
  default "0"%char (String.get (N.to_nat n) "0123456789abcdef").

Fixpoint hex_of (digits : nat) (n : N) (acc : string) : string :=
  match digits with
  | O => acc
  | S k => hex_of k (n / 16)%N (String (hex_digit (n mod 16)%N) acc)
  end.

Definition hex_value (c : ascii) : option N :=
  let n := N_of_ascii c in
  if ((48 <=? n) && (n <=? 57))%N then Some (n - 48)%N
  else if ((97 <=? n) && (n <=? 102))%N then Some (n - 87)%N
  else if ((65 <=? n) && (n <=? 70))%N then Some (n - 55)%N
  else None.

Fixpoint hex_parse (s : string) (acc : N) : option N :=
  match s with
  | EmptyString => Some acc
  | String c s' => v ← hex_value c; hex_parse s' (acc * 16 + v)%N
  end.

Definition hex24 (s : string) : option N :=
  if (String.length s =? 24)%nat then hex_parse s 0%N else None.

Definition sample_runtime : Runtime := {|
  str_float x := pretty (Qnum x) ++ "/" ++ pretty (Zpos (Qden x));
  str_datetime t := pretty t;
  isoformat t := pretty t;
  repr_str s := "'" ++ s ++ "'";
  str_ObjectId o := hex_of 24 o "";
  ObjectId_is_valid s := bool_decide (is_Some (hex24 s));
  ObjectId_parse := hex24;
  utcnow n := Z.of_nat n;
|}.

(** A store after the seed routine and one verified user, and the process
    state around it; an empty store; no store. *)
Definition sample_user : gmap string value :=
  {[ "_id" := VObjectId 15;
     "phone" := VStr "555-0100";
     "name" := VNone;
     "is_verified" := VBool true;
     "last_login" := VStr "3";
     "created_at" := VDatetime 4;
     "updated_at" := VDatetime 6 ]}.

Definition sample_store : database :=
  Database
    {[ "user" := [sample_user];
       "restaurant" := assign_ids 10 (restaurants 0 1 2 3);
       "product" := assign_ids 12 [ {[ "title" := VStr "Butter Chicken";
                                       "price" := VFloat 12.99;
                                       "restaurant_id" := VStr "00000000000000000000000a" ]} ] ]}
    16.

Definition sample_world : world := World (Some sample_store) 7.

Definition empty_world : world := World (Some (Database ∅ 10)) 0.

(** A store whose only user is registered under the empty phone. *)
Definition blank_user : gmap string value :=
  {[ "_id" := VObjectId 15;
     "phone" := VStr "";
     "name" := VNone;
     "is_verified" := VBool true;
     "last_login" := VStr "3" ]}.

Definition blank_world : world :=
  World (Some (Database {[ "user" := [blank_user] ]} 16)) 7.

Definition no_store : world := World None 0.

(** A heap with one dict object. *)
Definition sample_heap : heap :=
  {[ 1%positive := {[ "_id" := VObjectId 255; "owner" := VObjectId 1;
                      "name" := VStr "Spice Garden" ]} ]}.

(** ** Collection schemas ([schemas.py]) *)

Module User.
Record t := Make {
  phone : string;
  name : option string;
  is_verified : bool;
  last_login : option string;
}.
End User.

Module Restaurant.
Record t := Make {
  name : string;
  description : option string;
  address : option string;
  image : option string;
  rating : option Q;
  cuisine : option string;
}.
End Restaurant.

Module Product.
Record t := Make {
  title : string;
  description : option string;
  price : Q;
  image : option string;
  restaurant_id : option string;
  tags : option (list string);
}.
End Product.

(** [is_verified: bool = Field(False)]: absent means false.  As for the
    response models, only values of the declared type are accepted. *)
Definition field_bool_default (d : gmap string value) (k : string)
    (dflt : bool) : result bool :=
  match d !! k with
  | None => Ok dflt
  | Some (VBool b) => Ok b
  | Some _ => Raise (ValidationError k)
  end.

(** [rating: Optional[float] = Field(4.5, ge=0, le=5)]: absent means 4.5,
    [None] is allowed, a number must lie between the bounds. *)
Definition field_rating (d : gmap string value) (k : string)
  : result (option Q) :=
  match d !! k with
  | None => Ok (Some 4.5%Q)
  | Some VNone => Ok None
  | Some (VFloat x) =>
      if Qle_bool 0 x && Qle_bool x 5 then Ok (Some x)
      else Raise (ValidationError k)
  | Some _ => Raise (ValidationError k)
  end.

(** [price: float = Field(..., ge=0)] *)
Definition field_price (d : gmap string value) (k : string) : result Q :=
  match d !! k with
  | Some (VFloat x) =>
      if Qle_bool 0 x then Ok x else Raise (ValidationError k)
  | _ => Raise (ValidationError k)
  end.

(** The constructor [User], called with the items of [d] as keyword
    arguments; items of other names are ignored. *)
Definition new_User (d : gmap string value) : result User.t :=
  phone ← field_str d "phone";
  name ← field_opt_str d "name";
  is_verified ← field_bool_default d "is_verified" false;
  last_login ← field_opt_str d "last_login";
  Ok (User.Make phone name is_verified last_login).

Definition new_Restaurant (d : gmap string value) : result Restaurant.t :=
  name ← field_str d "name";
  description ← field_opt_str d "description";
  address ← field_opt_str d "address";
  image ← field_opt_str d "image";
  rating ← field_rating d "rating";
  cuisine ← field_opt_str d "cuisine";
  Ok (Restaurant.Make name description address image rating cuisine).

Definition new_Product (d : gmap string value) : result Product.t :=
  title ← field_str d "title";
  description ← field_opt_str d "description";
  price ← field_price d "price";
  image ← field_opt_str d "image";
  restaurant_id ← field_opt_str d "restaurant_id";
  tags ← field_tags d "tags";
  Ok (Product.Make title description price image restaurant_id tags).

(** A document validates against a schema. *)
Definition conforms {A} (schema : gmap string value → result A)
    (d : gmap string value) : Prop :=
  ∃ a, schema d = Ok a.

(** A property of the store alone, as a property of the process state. *)
Definition db_inv (P : option database → Prop) (w : world) : Prop := P (db w).

(** A restaurant that the seed routine would not have written, with a
    string identifier; one without a name; stores that hold them and no
    product. *)
Definition diner : gmap string value :=
  {[ "_id" := VStr "diner"; "name" := VStr "Corner Diner";
     "rating" := VFloat 3.9 ]}.

Definition nameless : gmap string value :=
  {[ "_id" := VObjectId 3; "address" := VStr "1 Main St" ]}.

Definition diner_world : world :=
  World (Some (Database {[ "restaurant" := [diner] ]} 4)) 0.

Definition nameless_world : world :=
  World (Some (Database {[ "restaurant" := [diner; nameless] ]} 4)) 0.

(** A heap whose dict object is empty. *)
Definition empty_dict_heap : heap := {[ 1%positive := ∅ ]}.

(** A store whose user was written without an identifier, as no store
    would; a store whose restaurant has a string identifier that reads as
    an ObjectId. *)
Definition keyless_world : world :=
  World (Some (Database {[ "user" := [ {[ "phone" := VStr "555-0100" ]} ] ]} 1)) 0.

Definition shadow_world : world :=
  World (Some (Database
    {[ "restaurant" := [ {[ "_id" := VStr "00000000000000000000000a";
                            "name" := VStr "Ghost Kitchen" ]} ] ]} 1)) 0.

Section Lookup.
Context `{RT : Runtime}.


End Lookup.

(** * Properties *)

Section Properties.
Context `{RT : Runtime}.

(** ** Identifier normalization *)

Lemma stringify_items_lookup (items : list (string * value))
    (d : gmap string value) (k : string) :
  NoDup items.*1 →
  stringify_items items d !! k =
    match (list_to_map items : gmap string value) !! k with
    | Some v => if is_ObjectId v then Some (VStr (py_str v)) else d !! k
    | None => d !! k
    end.
Proof.
  revert d. induction items as [|[k' v'] items IH]; intros d Hnd.
  - cbn. by rewrite lookup_empty.
  - rewrite fmap_cons in Hnd. apply NoDup_cons in Hnd as [Hk' Hnd].
    unfold stringify_items in *. cbn [foldl fst snd] in *.
    rewrite IH by done. cbn [list_to_map foldr fst snd].
    destruct (decide (k = k')) as [->|Hne].
    + rewrite (not_elem_of_list_to_map_1 items k') by done.
      rewrite lookup_insert_eq.
      destruct (is_ObjectId v'); [by rewrite lookup_insert_eq | done].
    + rewrite (lookup_insert_ne _ k' k) by done.
      destruct (is_ObjectId v'); [|done].
      by rewrite (lookup_insert_ne _ k' k).
Qed.

Lemma stringify_items_fmap (d : gmap string value) :
  stringify_items (map_to_list d) d = stringify <$> d.
Proof.
  apply map_eq; intros k.
  rewrite stringify_items_lookup by apply NoDup_fst_map_to_list.
  rewrite list_to_map_to_list, lookup_fmap. unfold stringify.
  destruct (d !! k) as [v|]; [|done]. cbn. by destruct (is_ObjectId v).
Qed.

(** [to_str_id] as one expression: it never raises. *)
Lemma to_str_id_eq (doc : gmap string value) :
  to_str_id doc = Ok (stringify <$> rename_id doc).
Proof.
  unfold to_str_id, rename_id, dict_truthy.
  case_bool_decide as Hne; cbn.
  - unfold dict_pop. case_bool_decide as Hid.
    + destruct Hid as [v Hv]. rewrite Hv. cbn. by rewrite stringify_items_fmap.
    + apply eq_None_not_Some in Hid. rewrite Hid. cbn.
      by rewrite stringify_items_fmap.
  - subst doc. by rewrite lookup_empty, fmap_empty.
Qed.

Lemma stringify_not_ObjectId (v : value) : is_ObjectId (stringify v) = false.
Proof. unfold stringify. by destruct v. Qed.

Lemma stringify_id (v : value) : is_ObjectId v = false → stringify v = v.
Proof. unfold stringify. by intros ->. Qed.

Lemma rename_id_no_id (d : gmap string value) : rename_id d !! "_id" = None.
Proof.
  unfold rename_id. destruct (d !! "_id") eqn:E; [|done].
  rewrite lookup_insert_ne by done. apply lookup_delete_eq.
Qed.

(** Fields other than the two identifier keys keep their value, up to
    stringification. *)
Lemma to_str_id_lookup (doc d : gmap string value) (k : string) :
  to_str_id doc = Ok d → k ≠ "_id" → k ≠ "id" →
  d !! k = stringify <$> doc !! k.
Proof.
  rewrite to_str_id_eq. intros [= <-] H1 H2. rewrite lookup_fmap. f_equal.
  unfold rename_id. destruct (doc !! "_id"); [|done].
  rewrite lookup_insert_ne by done. by rewrite lookup_delete_ne.
Qed.

Lemma to_str_id_opt_ok (x : option (gmap string value)) :
  to_str_id_opt x = Ok ((λ d, stringify <$> rename_id d) <$> x).
Proof. destruct x as [d|]; [|done]. cbn. by rewrite to_str_id_eq. Qed.

(** C4: [to_str_id] returns on every document, never raising; applied to
    its own result it returns that result again; and a document with no
    [_id] field and no ObjectId among its values is returned as it is. *)
Theorem to_str_id_idempotent_total (doc : gmap string value) :
  ∃ d, to_str_id doc = Ok d
       ∧ to_str_id d = Ok d
       ∧ (doc !! "_id" = None
          → (∀ k v, doc !! k = Some v → is_ObjectId v = false)
          → d = doc).
Proof.
  exists (stringify <$> rename_id doc). split; [apply to_str_id_eq|].
  split.
  - rewrite to_str_id_eq. f_equal. unfold rename_id at 1.
    rewrite lookup_fmap, rename_id_no_id. cbn.
    apply map_eq; intros k. rewrite !lookup_fmap.
    destruct (rename_id doc !! k) as [v|]; [|done]. cbn.
    by rewrite (stringify_id (stringify v)) by apply stringify_not_ObjectId.
  - intros Hid Hvals. unfold rename_id. rewrite Hid.
    apply map_eq; intros k. rewrite lookup_fmap.
    destruct (doc !! k) as [v|] eqn:E; [|done]. cbn.
    by rewrite stringify_id by eauto.
Qed.

(** ** [to_str_id] on dict objects *)

Lemma bind_run {S A B} (m : state_exn S A) (f : A → state_exn S B) (s : S) :
  (m ≫= f) s =
    match m s with
    | (Ok a, s') => f a s'
    | (Raise e, s') => (Raise e, s')
    end.
Proof. reflexivity. Qed.

Lemma ret_run {S A} (a : A) (s : S) :
  (mret a : state_exn S A) s = (Ok a, s).
Proof. reflexivity. Qed.

Lemma deref_run (l : positive) (d : gmap string value) (h : heap) :
  h !! l = Some d → deref l h = (Ok d, h).
Proof. unfold deref. by intros ->. Qed.

Lemma ref_setitem_run (l : positive) (k : string) (v : value)
    (d : gmap string value) (h : heap) :
  h !! l = Some d → ref_setitem l k v h = (Ok tt, <[l := <[k := v]> d]> h).
Proof. intros Hl. unfold ref_setitem. by rewrite bind_run, (deref_run l d). Qed.

Lemma ref_pop_run (l : positive) (k : string) (v : value)
    (d : gmap string value) (h : heap) :
  h !! l = Some d → d !! k = Some v →
  ref_pop l k h = (Ok v, <[l := delete k d]> h).
Proof.
  intros Hl Hk. unfold ref_pop. rewrite bind_run, (deref_run l d) by done.
  rewrite bind_run. unfold lift, dict_pop. rewrite Hk. done.
Qed.

Lemma stringify_loop_run (d : positive) (items : list (string * value))
    (m : gmap string value) (h : heap) :
  h !! d = Some m →
  ∃ us, for_each (λ kv : string * value,
                    if is_ObjectId kv.2
                    then ref_setitem d kv.1 (VStr (py_str kv.2))
                    else mret tt) items h
        = (Ok us, <[d := stringify_items items m]> h).
Proof.
  revert m h. induction items as [|[k v] items IH]; intros m h Hd.
  - exists []. cbn. by rewrite insert_id.
  - cbn [for_each fst snd]. rewrite bind_run.
    destruct (is_ObjectId v) eqn:Ev.
    + rewrite (ref_setitem_run d k _ m) by done.
      destruct (IH (<[k := VStr (py_str v)]> m) (<[d := <[k := VStr (py_str v)]> m]> h))
        as [us Hus]; [by rewrite lookup_insert_eq|].
      exists (tt :: us). rewrite bind_run, Hus, ret_run.
      rewrite insert_insert_eq. unfold stringify_items. cbn. by rewrite Ev.
    + destruct (IH m h Hd) as [us Hus]. exists (tt :: us).
      rewrite ret_run, bind_run, Hus, ret_run.
      unfold stringify_items. cbn. by rewrite Ev.
Qed.

(** C9: [to_str_id] does not write to the dict it is given.  Called on a
    reference to a non-empty dict [m], it returns a reference to a new
    object holding the normalized document, and the heap is the old one
    with that object added: the object behind [doc] still holds [m]. *)
Theorem to_str_id_ref_frame (h : heap) (doc : positive)
    (m : gmap string value) :
  h !! doc = Some m → m ≠ ∅ →
  ∃ d n h',
    to_str_id_ref doc h = (Ok d, h')
    ∧ to_str_id m = Ok n
    ∧ h !! d = None ∧ d ≠ doc
    ∧ h' = <[d := n]> h
    ∧ h' !! doc = Some m.
Proof.
  intros Hdoc Hne.
  set (d := fresh (dom h)).
  assert (Hfresh : h !! d = None).
  { apply not_elem_of_dom. apply is_fresh. }
  assert (Hd : d ≠ doc) by (intros ->; congruence).
  exists d, (stringify <$> rename_id m), (<[d := stringify <$> rename_id m]> h).
  split; [|split; [apply to_str_id_eq|]].
  2:{ repeat split; try done. by rewrite lookup_insert_ne. }
  unfold to_str_id_ref, ref_truthy, ref_copy, ref_contains, ref_items.
  repeat rewrite bind_run. rewrite (deref_run doc m), ret_run by done.
  unfold dict_truthy. rewrite bool_decide_true by done. cbn [negb].
  repeat rewrite bind_run. rewrite (deref_run doc m) by done.
  unfold alloc. fold d. set (h1 := <[d := m]> h).
  assert (Hh1 : h1 !! d = Some m) by apply lookup_insert_eq.
  repeat rewrite bind_run. rewrite (deref_run d m), ret_run by done.
  assert (Hstep : ∃ u,
    (if bool_decide (is_Some (m !! "_id"))
     then v ← ref_pop d "_id"; ref_setitem d "id" (VStr (py_str v))
     else mret tt) h1 = (Ok u, <[d := rename_id m]> h)).
  { exists tt. unfold rename_id. case_bool_decide as Hid.
    - destruct Hid as [v Hv]. rewrite Hv.
      rewrite bind_run, (ref_pop_run d "_id" v m) by done.
      rewrite (ref_setitem_run d "id" _ (delete "_id" m))
        by apply lookup_insert_eq.
      unfold h1. by rewrite !insert_insert_eq.
    - apply eq_None_not_Some in Hid. rewrite Hid, ret_run.
      unfold h1. done. }
  destruct Hstep as [u Hstep]. repeat rewrite bind_run. rewrite Hstep.
  repeat rewrite bind_run.
  rewrite (deref_run d (rename_id m)), ret_run by apply lookup_insert_eq.
  destruct (stringify_loop_run d (map_to_list (rename_id m)) (rename_id m)
              (<[d := rename_id m]> h)) as [us Hus];
    [by rewrite lookup_insert_eq|].
  repeat rewrite bind_run. rewrite Hus, ret_run.
  by rewrite insert_insert_eq, stringify_items_fmap.
Qed.

(** ** Running the store operations *)

Lemma lift_run {S A} (r : result A) (s : S) : lift r s = (r, s).
Proof. reflexivity. Qed.

Lemma raise_run {S A} (e : exn) (s : S) : raise (A:=A) e s = (Raise e, s).
Proof. reflexivity. Qed.

Lemma get_db_run (w : world) : get_db w = (Ok (db w), w).
Proof. reflexivity. Qed.

Lemma datetime_now_run (d : option database) (n : nat) :
  datetime_now (World d n) = (Ok (utcnow n), World d (S n)).
Proof. reflexivity. Qed.

Lemma find_one_run (name : string) (flt : list (string * value))
    (st : database) (n : nat) :
  find_one name flt (World (Some st) n)
  = (Ok (List.find (matches flt) (collection st name)), World (Some st) n).
Proof. reflexivity. Qed.

Lemma find_run (name : string) (flt : list (string * value))
    (st : database) (n : nat) :
  find name flt (World (Some st) n)
  = (Ok (filter (λ d, matches flt d = true) (collection st name)),
     World (Some st) n).
Proof. reflexivity. Qed.

Lemma count_documents_run (name : string) (st : database) (n : nat) :
  count_documents name (World (Some st) n)
  = (Ok (length (collection st name)), World (Some st) n).
Proof. reflexivity. Qed.

Lemma update_one_run (name : string) (flt sets : list (string * value))
    (st : database) (n : nat) :
  update_one name flt sets (World (Some st) n)
  = (Ok tt,
     World (Some (Database
                    (<[name := update_first flt sets (collection st name)]> (colls st))
                    (next_oid st))) n).
Proof. reflexivity. Qed.

Lemma insert_many_run (name : string) (docs : list (gmap string value))
    (st : database) (n : nat) :
  insert_many name docs (World (Some st) n)
  = (Ok tt,
     World (Some (Database
                    (<[name := (collection st name ++ assign_ids (next_oid st) docs)%list]>
                       (colls st))
                    (next_oid st + N.of_nat (length docs)))) n).
Proof. reflexivity. Qed.

Lemma collection_insert_eq (name : string) (c : list (gmap string value))
    (cs : gmap string (list (gmap string value))) (o : N) :
  collection (Database (<[name := c]> cs) o) name = c.
Proof. unfold collection. cbn. by rewrite lookup_insert_eq. Qed.

Lemma collection_insert_ne (name name' : string)
    (c : list (gmap string value)) (st : database) (o : N) :
  name ≠ name' →
  collection (Database (<[name := c]> (colls st)) o) name' = collection st name'.
Proof. intros. unfold collection. cbn. by rewrite lookup_insert_ne. Qed.

Lemma find_no_match (flt : list (string * value))
    (l : list (gmap string value)) :
  (∀ d, d ∈ l → matches flt d = false) → List.find (matches flt) l = None.
Proof.
  induction l as [|d l IH]; intros Hl; [done|]. cbn.
  rewrite (Hl d) by left. apply IH. intros d' Hd'. apply Hl. by right.
Qed.

Lemma matches_single (k : string) (v : value) (d : gmap string value) :
  matches [(k, v)] d = bool_decide (d !! k = Some v).
Proof. unfold matches. cbn. by rewrite andb_true_r. Qed.

(** One step of a handler: expose the first operation, run it, continue. *)
Ltac run_step :=
  first [ rewrite bind_run | rewrite ret_run | rewrite lift_run
        | rewrite raise_run | rewrite get_db_run | rewrite datetime_now_run
        | rewrite find_one_run | rewrite find_run
        | rewrite count_documents_run | rewrite update_one_run
        | rewrite insert_many_run ];
  cbv beta iota.

Ltac run := repeat run_step.

(** ** The handlers without a store *)

(** C5, as the handlers have it: without a store the two auth handlers
    fail with status 500, the two detail handlers fail with status 404, and
    the three list handlers return the empty list; nothing changes. *)
Theorem store_unavailable (w : world) (p : SendOtpRequest)
    (v : VerifyOtpRequest) (path_id : string) :
  db w = None →
  send_otp p w = (Raise (HTTPException 500 "Database not configured"), w)
  ∧ verify_otp v w = (Raise (HTTPException 500 "Database not configured"), w)
  ∧ get_restaurant path_id w = (Raise (HTTPException 404 "Not found"), w)
  ∧ get_product path_id w = (Raise (HTTPException 404 "Not found"), w)
  ∧ list_restaurants w = (Ok [], w)
  ∧ list_products w = (Ok [], w)
  ∧ get_restaurant_products path_id w = (Ok [], w).
Proof.
  intros Hdb.
  unfold send_otp, verify_otp, get_restaurant, get_product, list_restaurants,
    list_products, get_restaurant_products.
  rewrite !bind_run, !get_db_run, Hdb. done.
Qed.

(** ** Verification of the code *)

(** C2: with the store available, a submitted code other than "1234" makes
    [verify_otp] fail with [HTTPException 400 "Invalid OTP"], whatever the
    phone and whatever the user collection holds. *)
Theorem verify_otp_wrong_code (w : world) (st : database)
    (payload : VerifyOtpRequest) :
  db w = Some st →
  verify_otp_code payload ≠ "1234" →
  verify_otp payload w = (Raise (HTTPException 400 "Invalid OTP"), w).
Proof.
  intros Hdb Hotp. unfold verify_otp.
  rewrite bind_run, get_db_run, Hdb. by rewrite bool_decide_true.
Qed.

(** C10: a call of [verify_otp] that raises, with whatever exception,
    leaves the process state as it found it, the user collection included:
    the update to [is_verified] is made only by a call that returns. *)
Theorem verify_otp_failure_writes_nothing (w w' : world)
    (payload : VerifyOtpRequest) (e : exn) :
  verify_otp payload w = (Raise e, w') → w' = w.
Proof.
  destruct w as [[st|] n]; unfold verify_otp; rewrite bind_run, get_db_run;
    cbn [db]; [|by intros [= _ <-]].
  case_bool_decide; [by intros [= _ <-]|].
  rewrite bind_run, find_one_run.
  destruct (truthy _) eqn:Ht; cbn [negb]; [|by intros [= _ <-]].
  rewrite bind_run, lift_run.
  destruct (getitem _ "_id") as [id|e'] eqn:Eid; [|by intros [= _ <-]].
  rewrite bind_run, datetime_now_run, bind_run, update_one_run.
  rewrite bind_run, lift_run, bind_run, find_one_run.
  rewrite bind_run, lift_run, to_str_id_opt_ok. by rewrite ret_run.
Qed.

(** ** The seed routine on a seeded store *)

(** C8: when neither the restaurant nor the product collection is empty,
    [seed_data] returns without any write: the process state, and with it
    both collections, is what it was. *)
Theorem seed_data_idempotent (w : world) (st : database) :
  db w = Some st →
  collection st "restaurant" ≠ [] →
  collection st "product" ≠ [] →
  seed_data w = (Ok tt, w).
Proof.
  destruct w as [d n]. cbn [db]. intros -> Hr Hp. unfold seed_data.
  rewrite bind_run, get_db_run. cbn [db].
  rewrite bind_run, count_documents_run.
  destruct (collection st "restaurant") as [|r rs] eqn:Er; [done|].
  cbn [length Nat.eqb]. rewrite bind_run, ret_run.
  rewrite bind_run, count_documents_run.
  destruct (collection st "product") as [|q qs] eqn:Eq; [done|].
  cbn [length Nat.eqb]. by rewrite ret_run.
Qed.

(** ** Detail handlers *)

Lemma find_by_path_id_unknown (name path_id : string) (st : database)
    (n : nat) :
  (∀ d, d ∈ collection st name → ¬ id_matches path_id d) →
  find_by_path_id name path_id (World (Some st) n)
  = (Ok None, World (Some st) n).
Proof.
  intros Hno. unfold find_by_path_id, try_except.
  destruct (ObjectId_is_valid path_id).
  - rewrite bind_run, lift_run.
    destruct (ObjectId_parse path_id) as [o|] eqn:Eo; [|done].
    rewrite find_one_run, find_no_match; [done|].
    intros d Hd. rewrite matches_single. apply bool_decide_eq_false.
    intros Hid. apply (Hno d Hd). right. eauto.
  - rewrite find_one_run, find_no_match; [done|].
    intros d Hd. rewrite matches_single. apply bool_decide_eq_false.
    intros Hid. apply (Hno d Hd). by left.
Qed.

(** C6: with the store available, a path identifier that names no document
    of the collection, neither as a literal string nor as the ObjectId it
    may parse to, makes [get_restaurant] and [get_product] fail with status
    404; the store is not written. *)
Theorem detail_unknown_id_404 (w : world) (st : database) (path_id : string) :
  db w = Some st →
  ((∀ d, d ∈ collection st "restaurant" → ¬ id_matches path_id d) →
   get_restaurant path_id w
   = (Raise (HTTPException 404 "Restaurant not found"), w))
  ∧ ((∀ d, d ∈ collection st "product" → ¬ id_matches path_id d) →
     get_product path_id w
     = (Raise (HTTPException 404 "Product not found"), w)).
Proof.
  destruct w as [d n]. cbn [db]. intros ->.
  split; intros Hno; unfold get_restaurant, get_product;
    rewrite bind_run, get_db_run; cbn [db];
    by rewrite bind_run, find_by_path_id_unknown.
Qed.

(** ** The seed routine on a fresh store *)

Lemma name_to_id_restaurants (o : N) (c1 u1 c2 u2 : Z) :
  name_to_id (assign_ids o (restaurants c1 u1 c2 u2))
  = Ok [(VStr "Spice Garden", VObjectId o);
        (VStr "Pasta Piazza", VObjectId (N.succ o))].
Proof. reflexivity. Qed.

Lemma filter_matches_all (l : list (gmap string value)) :
  filter (λ d, matches [] d = true) l = l.
Proof.
  induction l as [|d l IH]; [done|].
  rewrite filter_cons_True by done. by rewrite IH.
Qed.

(** C7: on a store whose restaurant and product collections are empty,
    [seed_data] returns; after it [list_restaurants] returns exactly two
    records, named "Spice Garden" and "Pasta Piazza", whose ids are the
    stringified identifiers the store gave them, and [list_products]
    returns exactly three records, the first two carrying the id of Spice
    Garden as [restaurant_id] and the third that of Pasta Piazza. *)
Theorem seed_then_list (w : world) (st : database) :
  db w = Some st →
  collection st "restaurant" = [] →
  collection st "product" = [] →
  ∃ w1 r1 r2 p1 p2 p3,
    seed_data w = (Ok tt, w1)
    ∧ list_restaurants w1 = (Ok [r1; r2], w1)
    ∧ list_products w1 = (Ok [p1; p2; p3], w1)
    ∧ RestaurantOut.name r1 = "Spice Garden"
    ∧ RestaurantOut.name r2 = "Pasta Piazza"
    ∧ RestaurantOut.id r1 = py_str (VObjectId (next_oid st))
    ∧ RestaurantOut.id r2 = py_str (VObjectId (N.succ (next_oid st)))
    ∧ ProductOut.restaurant_id p1 = Some (RestaurantOut.id r1)
    ∧ ProductOut.restaurant_id p2 = Some (RestaurantOut.id r1)
    ∧ ProductOut.restaurant_id p3 = Some (RestaurantOut.id r2).
Proof.
  destruct w as [d n]. cbn [db]. intros -> Hr Hp.
  eexists _, _, _, _, _, _. split.
  { unfold seed_data. run. cbn [db]. run. rewrite Hr. cbn [length Nat.eqb].
    run. rewrite collection_insert_ne, Hp by done. cbn [length Nat.eqb].
    run. rewrite collection_insert_eq, filter_matches_all.
    rewrite Hr, app_nil_l, name_to_id_restaurants. run.
    rewrite collection_insert_ne, Hp, app_nil_l by done. reflexivity. }
  split.
  { unfold list_restaurants. run. cbn [db]. run.
    rewrite collection_insert_ne by done.
    rewrite collection_insert_eq, filter_matches_all. reflexivity. }
  split.
  { unfold list_products. run. cbn [db]. run.
    rewrite collection_insert_eq, filter_matches_all.
    reflexivity. }
  repeat split.
Qed.

(** ** Updates and lookups in a collection *)

Lemma matches_truthy (k : string) (v : value) (d : gmap string value) :
  matches [(k, v)] d = true → dict_truthy d = true.
Proof.
  rewrite matches_single. intros Hm%bool_decide_eq_true.
  apply bool_decide_eq_true. intros ->. by rewrite lookup_empty in Hm.
Qed.

Lemma find_Some_lookup {A} (f : A → bool) (l : list A) (x : A) :
  List.find f l = Some x →
  ∃ i, l !! i = Some x ∧ f x = true
       ∧ ∀ j y, (j < i)%nat → l !! j = Some y → f y = false.
Proof.
  induction l as [|a l IH]; [done|]. cbn. destruct (f a) eqn:Ea.
  - intros [= ->]. exists 0%nat. repeat split; [done|]. intros; lia.
  - intros (i & Hi & Hx & Hlt)%IH. exists (S i). repeat split; [done..|].
    intros [|j] y Hj; cbn; [by intros [= <-]|]. apply Hlt. lia.
Qed.

Lemma find_first_lookup {A} (f : A → bool) (l : list A) (i : nat) (x : A) :
  l !! i = Some x → f x = true →
  (∀ j y, (j < i)%nat → l !! j = Some y → f y = false) →
  List.find f l = Some x.
Proof.
  revert i. induction l as [|a l IH]; intros [|i]; cbn; try done.
  - by intros [= ->] ->.
  - intros Hi Hx Hlt. rewrite (Hlt 0%nat a) by (done || lia).
    apply (IH i); [done..|]. intros j y Hj. apply (Hlt (S j)). lia.
Qed.

(** An update on the identifier of a document of a collection without
    duplicate identifiers writes to that document. *)
Lemma update_first_by_id (sets : list (string * value))
    (l : list (gmap string value)) (i : nat) (d : gmap string value)
    (v : value) :
  NoDup (ids l) → l !! i = Some d → d !! "_id" = Some v →
  update_first [("_id", v)] sets l = <[i := apply_set sets d]> l.
Proof.
  revert i. induction l as [|a l IH]; intros [|i]; cbn -[matches]; try done.
  - intros _ [= ->] Hv. by rewrite matches_single, bool_decide_true.
  - intros [Ha Hnd]%NoDup_cons Hi Hv. rewrite matches_single.
    rewrite bool_decide_false.
    + f_equal. by apply IH.
    + intros Hav. apply Ha. rewrite Hav, <- Hv. unfold ids.
      apply list_elem_of_fmap. exists d. split; [done|].
      by apply list_elem_of_lookup_2 with i.
Qed.

(** The update finds what the lookup finds, and what the lookup then
    finds is the updated document. *)
Lemma find_update_first (flt sets : list (string * value))
    (l : list (gmap string value)) :
  (∀ d, matches flt (apply_set sets d) = matches flt d) →
  List.find (matches flt) (update_first flt sets l)
  = apply_set sets <$> List.find (matches flt) l.
Proof.
  intros Hkeep. induction l as [|a l IH]; [done|]. cbn -[matches].
  destruct (matches flt a) eqn:Ea; cbn -[matches].
  - by rewrite Hkeep, Ea.
  - by rewrite Ea.
Qed.

Lemma ids_insert (l : list (gmap string value)) (i : nat)
    (d d' : gmap string value) :
  l !! i = Some d → d' !! "_id" = d !! "_id" → ids (<[i := d']> l) = ids l.
Proof.
  intros Hi Hid. unfold ids. rewrite list_fmap_insert, Hid.
  apply list_insert_id. by rewrite list_lookup_fmap, Hi.
Qed.

Lemma id_issued_mono (o o' : N) (d : gmap string value) :
  (o ≤ o')%N → id_issued o d → id_issued o' d.
Proof.
  unfold id_issued. intros Hle. destruct (d !! "_id") as [[]|]; try done. lia.
Qed.

Lemma id_issued_fresh (o : N) (l : list (gmap string value)) :
  Forall (id_issued o) l → Some (VObjectId o) ∉ ids l.
Proof.
  intros Hall (d & Hd & Hin)%list_elem_of_fmap.
  rewrite Forall_forall in Hall. specialize (Hall d Hin).
  unfold id_issued in Hall. rewrite <- Hd in Hall. lia.
Qed.

(** ** The store's guarantees are kept by every handler *)

Lemma apply_set_lookup_ne (sets : list (string * value))
    (d : gmap string value) (k : string) :
  k ∉ sets.*1 → apply_set sets d !! k = d !! k.
Proof.
  revert d. induction sets as [|[k' v'] sets IH]; intros d Hk; [done|].
  rewrite fmap_cons in Hk. apply not_elem_of_cons in Hk as [Hne Hk].
  unfold apply_set in *. cbn [foldl fst snd] in *. rewrite IH by done.
  by rewrite lookup_insert_ne.
Qed.

Lemma id_issued_ext (o : N) (d d' : gmap string value) :
  d' !! "_id" = d !! "_id" → id_issued o d → id_issued o d'.
Proof. unfold id_issued. by intros ->. Qed.

Lemma update_first_ids (flt sets : list (string * value))
    (l : list (gmap string value)) :
  "_id" ∉ sets.*1 → ids (update_first flt sets l) = ids l.
Proof.
  intros Hk. induction l as [|d l IH]; [done|]. cbn -[matches].
  destruct (matches flt d); cbn.
  - by rewrite apply_set_lookup_ne.
  - unfold ids in IH. by rewrite IH.
Qed.

Lemma update_first_issued (flt sets : list (string * value)) (o : N)
    (l : list (gmap string value)) :
  "_id" ∉ sets.*1 → Forall (id_issued o) l →
  Forall (id_issued o) (update_first flt sets l).
Proof.
  intros Hk. induction 1 as [|d l Hd Hl IH]; [constructor|]. cbn -[matches].
  destruct (matches flt d); constructor; try done.
  apply id_issued_ext with d; [|done]. by apply apply_set_lookup_ne.
Qed.

Lemma assign_ids_bounds (n : N) (docs : list (gmap string value)) (x : option value) :
  x ∈ ids (assign_ids n docs) →
  ∃ o, x = Some (VObjectId o) ∧ (n ≤ o < n + N.of_nat (length docs))%N.
Proof.
  revert n. induction docs as [|d docs IH]; intros n; cbn.
  - by intros ?%not_elem_of_nil.
  - rewrite lookup_insert_eq. intros [->|Hx]%elem_of_cons.
    + exists n. split; [done|]. lia.
    + destruct (IH _ Hx) as (o & -> & Ho). exists o. split; [done|]. lia.
Qed.

Lemma assign_ids_NoDup (n : N) (docs : list (gmap string value)) :
  NoDup (ids (assign_ids n docs)).
Proof.
  revert n. induction docs as [|d docs IH]; intros n; cbn; [constructor|].
  rewrite lookup_insert_eq. constructor; [|apply IH].
  intros (o & [= <-] & Ho)%assign_ids_bounds. lia.
Qed.

Lemma assign_ids_issued (n m : N) (docs : list (gmap string value)) :
  (n + N.of_nat (length docs) ≤ m)%N →
  Forall (id_issued m) (assign_ids n docs).
Proof.
  revert n. induction docs as [|d docs IH]; intros n Hle; cbn; constructor.
  - unfold id_issued. rewrite lookup_insert_eq. cbn in Hle. lia.
  - apply IH. cbn in Hle. lia.
Qed.

(** An insert keeps the guarantees of every collection: the new documents
    take the next identifiers. *)
Lemma coll_wf_insert_many (st : database) (name name' : string)
    (docs : list (gmap string value)) :
  coll_wf st name' →
  coll_wf (Database
             (<[name := (collection st name ++ assign_ids (next_oid st) docs)%list]>
                (colls st))
             (next_oid st + N.of_nat (length docs))) name'.
Proof.
  intros [Hiss Hnd]. unfold coll_wf. cbn [next_oid].
  destruct (decide (name = name')) as [<-|Hne].
  - rewrite collection_insert_eq. split.
    + apply Forall_app. split.
      * eapply Forall_impl; [done|]. intros x. apply id_issued_mono. lia.
      * by apply assign_ids_issued.
    + unfold ids. rewrite fmap_app. apply NoDup_app.
      split; [done|]. split; [|apply assign_ids_NoDup].
      intros x Hx (o & -> & Ho)%assign_ids_bounds.
      apply list_elem_of_fmap in Hx as (d & Hd & Hin).
      rewrite Forall_forall in Hiss. specialize (Hiss d Hin).
      unfold id_issued in Hiss. rewrite <- Hd in Hiss. lia.
  - rewrite collection_insert_ne by done. split; [|done].
    eapply Forall_impl; [done|]. intros x. apply id_issued_mono. lia.
Qed.

(** So does an update that does not set [_id]. *)
Lemma coll_wf_update_one (st : database) (name name' : string)
    (flt sets : list (string * value)) :
  "_id" ∉ sets.*1 →
  coll_wf st name' →
  coll_wf (Database
             (<[name := update_first flt sets (collection st name)]> (colls st))
             (next_oid st)) name'.
Proof.
  intros Hk [Hiss Hnd]. unfold coll_wf. cbn [next_oid].
  destruct (decide (name = name')) as [<-|Hne].
  - rewrite collection_insert_eq. split.
    + by apply update_first_issued.
    + by rewrite update_first_ids.
  - by rewrite collection_insert_ne.
Qed.

Lemma preserves_bind {A B} (I : world → Prop) (m : M A) (f : A → M B) :
  preserves I m → (∀ a, preserves I (f a)) → preserves I (m ≫= f).
Proof.
  intros Hm Hf w Hw. rewrite bind_run. specialize (Hm w Hw).
  destruct (m w) as [[a|e] w']; cbn in *; [by apply Hf | done].
Qed.

Lemma preserves_pure {A} (I : world → Prop) (m : M A) :
  (∀ w, (m w).2 = w) → preserves I m.
Proof. intros Hm w Hw. by rewrite Hm. Qed.

Lemma preserves_try_except {A} (I : world → Prop) (m h : M A) :
  preserves I m → preserves I h → preserves I (try_except m h).
Proof.
  intros Hm Hh w Hw. unfold try_except. specialize (Hm w Hw).
  destruct (m w) as [[a|e] w']; cbn in *; [done | by apply Hh].
Qed.

Lemma preserves_for_each {A B} (I : world → Prop) (f : A → M B)
    (xs : list A) :
  (∀ x, preserves I (f x)) → preserves I (for_each f xs).
Proof.
  intros Hf. induction xs as [|x xs IH]; cbn [for_each].
  - by apply preserves_pure.
  - apply preserves_bind; [done|]. intros y.
    apply preserves_bind; [done|]. intros ys. by apply preserves_pure.
Qed.

Lemma preserves_datetime_now : preserves store_wf datetime_now.
Proof. intros [d n] Hw. exact Hw. Qed.

Lemma preserves_read {A} (f : database → result A) :
  preserves store_wf (on_db (λ st, (f st, st))).
Proof.
  intros [[st|] n] Hw; unfold on_db; cbn; [|done].
  intros st' name [= <-]. by apply Hw.
Qed.

Lemma preserves_insert_many (name : string)
    (docs : list (gmap string value)) :
  preserves store_wf (insert_many name docs).
Proof.
  intros [[st|] n] Hw; [|done]. rewrite insert_many_run.
  intros st' name' [= <-]. apply coll_wf_insert_many. by apply Hw.
Qed.

Lemma preserves_update_one (name : string) (flt sets : list (string * value)) :
  "_id" ∉ sets.*1 → preserves store_wf (update_one name flt sets).
Proof.
  intros Hk [[st|] n] Hw; [|done]. rewrite update_one_run.
  intros st' name' [= <-]. apply coll_wf_update_one; [done|]. by apply Hw.
Qed.

(** Break a handler into its operations. *)
Ltac keeps :=
  repeat first
    [ apply preserves_bind; [|intros ?]
    | apply preserves_datetime_now
    | apply preserves_insert_many
    | apply preserves_update_one; by apply (bool_decide_unpack _)
    | apply (preserves_read (λ st, Ok _))
    | apply preserves_try_except
    | apply preserves_for_each; intros ?
    | apply preserves_pure; reflexivity
    | match goal with
      | |- preserves _ (match ?x with _ => _ end) => destruct x
      end ].

(** X26: every handler keeps the store's guarantees, whether it returns or
    raises: no update sets [_id] and every insert leaves the identifier to
    the store, so every document still has an identifier and identifiers
    stay unique in every collection.  The hypothesis [coll_wf] of the
    statements below holds of every state the handlers reach from a store
    that has the guarantees. *)
Lemma handlers_keep_store_wf :
  preserves store_wf seed_data
  ∧ (∀ p, preserves store_wf (send_otp p))
  ∧ (∀ v, preserves store_wf (verify_otp v))
  ∧ preserves store_wf list_restaurants
  ∧ (∀ s, preserves store_wf (get_restaurant s))
  ∧ (∀ s, preserves store_wf (get_restaurant_products s))
  ∧ preserves store_wf list_products
  ∧ (∀ s, preserves store_wf (get_product s)).
Proof.
  repeat match goal with |- _ ∧ _ => split end; intros;
    unfold seed_data, send_otp, verify_otp, list_restaurants, get_restaurant,
      get_restaurant_products, list_products, get_product, find_by_path_id,
      insert_one, find, find_one, count_documents;
    keeps.
Qed.

Lemma empty_store_wf (o : N) (n : nat) :
  store_wf (World (Some (Database ∅ o)) n).
Proof.
  intros st name [= <-]. unfold coll_wf, collection. cbn.
  rewrite lookup_empty. cbn. split; constructor.
Qed.

(** ** Requesting a code *)

(** [send_otp] for a phone that has a user: the first user with this phone
    is updated in place. *)
Lemma send_otp_existing (p : SendOtpRequest) (st : database) (n : nat)
    (u : gmap string value) (i : nat) :
  coll_wf st "user" →
  strip (send_phone p) ≠ "" →
  collection st "user" !! i = Some u →
  first_at (matches [("phone", VStr (strip (send_phone p)))])
           (collection st "user") i →
  send_otp p (World (Some st) n)
  = (Ok otp_sent,
     World (Some (Database
       (<["user" :=
           <[i := <["last_login" := VStr (isoformat (utcnow n))]>
                    (<["is_verified" := VBool false]> u)]>
             (collection st "user")]> (colls st))
       (next_oid st))) (S n)).
Proof.
  intros [Hiss Hnd] Hp Hi (u' & Hi' & Hm & Hlt).
  assert (u' = u) as -> by congruence.
  assert (Hfind := find_first_lookup _ _ _ _ Hi Hm Hlt).
  assert (Hin : u ∈ collection st "user") by by apply list_elem_of_lookup_2 with i.
  rewrite Forall_forall in Hiss. specialize (Hiss u Hin). unfold id_issued in Hiss.
  destruct (u !! "_id") as [uid|] eqn:Eid; [|done].
  unfold send_otp. run. cbn [db]. rewrite bool_decide_false by done.
  run. rewrite Hfind. cbn [truthy default from_option id].
  rewrite (matches_truthy _ _ _ Hm).
  run. unfold getitem. rewrite Eid. run.
  by rewrite (update_first_by_id _ _ i u).
Qed.

(** [send_otp] for a phone that has no user: one is appended, under the
    store's next identifier. *)
Lemma send_otp_new (p : SendOtpRequest) (st : database) (n : nat) :
  strip (send_phone p) ≠ "" →
  List.find (matches [("phone", VStr (strip (send_phone p)))])
            (collection st "user") = None →
  send_otp p (World (Some st) n)
  = (Ok otp_sent,
     World (Some (Database
       (<["user" :=
           (collection st "user" ++
            [<["_id" := VObjectId (next_oid st)]>
               {[ "phone" := VStr (strip (send_phone p));
                  "name" := VNone;
                  "is_verified" := VBool false;
                  "last_login" := VStr (isoformat (utcnow n));
                  "created_at" := VDatetime (utcnow (S n));
                  "updated_at" := VDatetime (utcnow (S (S n))) ]}])%list]>
          (colls st))
       (next_oid st + 1))) (S (S (S n)))).
Proof.
  intros Hp Hfind.
  unfold send_otp. run. cbn [db]. rewrite bool_decide_false by done.
  run. rewrite Hfind. cbn [truthy]. run. unfold insert_one. run. done.
Qed.

Lemma find_app_None {A} (f : A → bool) (l l' : list A) :
  List.find f l = None → List.find f (l ++ l') = List.find f l'.
Proof.
  induction l as [|a l IH]; [done|]. cbn. by destruct (f a).
Qed.

Lemma first_at_insert {A} (f : A → bool) (l : list A) (i : nat) (x' : A) :
  first_at f l i → f x' = true → first_at f (<[i := x']> l) i.
Proof.
  intros (x & Hi & Hx & Hlt) Hx'. exists x'. split.
  - apply list_lookup_insert_eq. by apply lookup_lt_Some with x.
  - split; [done|]. intros j y Hj. rewrite list_lookup_insert_ne by lia.
    by apply Hlt.
Qed.

Lemma find_by_id_unique (l : list (gmap string value)) (i : nat)
    (d : gmap string value) (v : value) :
  NoDup (ids l) → l !! i = Some d → d !! "_id" = Some v →
  List.find (matches [("_id", v)]) l = Some d.
Proof.
  revert i. induction l as [|a l IH]; intros [|i]; cbn -[matches]; try done.
  - intros _ [= ->] Hv. by rewrite matches_single, bool_decide_true.
  - intros [Ha Hnd]%NoDup_cons Hi Hv. rewrite matches_single.
    rewrite bool_decide_false; [by apply (IH i)|].
    intros Hav. apply Ha. rewrite Hav, <- Hv. unfold ids.
    apply list_elem_of_fmap. exists d. split; [done|].
    by apply list_elem_of_lookup_2 with i.
Qed.

Lemma filter_insert_length {A} (P : A → Prop) `{∀ x, Decision (P x)}
    (l : list A) (i : nat) (x x' : A) :
  l !! i = Some x → (P x ↔ P x') →
  length (filter P (<[i := x']> l)) = length (filter P l).
Proof.
  intros Hi Hx. revert i Hi.
  induction l as [|a l IH]; intros [|i]; cbn -[filter]; try done.
  - intros [= ->]. rewrite !filter_cons.
    destruct (decide (P x)), (decide (P x')); cbn; tauto.
  - intros Hi. rewrite !filter_cons. destruct (decide (P a)); cbn; auto.
Qed.

Lemma filter_find_None (k : string) (v : value)
    (l : list (gmap string value)) :
  List.find (matches [(k, v)]) l = None →
  filter (λ d, d !! k = Some v) l = [].
Proof.
  induction l as [|a l IH]; [done|]. cbn -[matches filter].
  rewrite matches_single.
  case_bool_decide as Ha; [done|]. intros Hl.
  rewrite filter_cons_False by done. by apply IH.
Qed.

Lemma filter_singleton {A} (P : A → Prop) `{∀ x, Decision (P x)}
    (l : list A) (i : nat) (x : A) :
  length (filter P l) = 1%nat → l !! i = Some x → P x → filter P l = [x].
Proof.
  intros Hlen Hi Hx.
  assert (Hin : x ∈ filter P l).
  { apply list_elem_of_filter. split; [done|]. by apply list_elem_of_lookup_2 with i. }
  destruct (filter P l) as [|y [|z l']]; try done.
  by apply list_elem_of_singleton in Hin as ->.
Qed.

(** The store's guarantees survive an update that keeps the identifier. *)
Lemma coll_wf_update (st : database) (name : string) (i : nat)
    (u u' : gmap string value) :
  coll_wf st name → collection st name !! i = Some u →
  u' !! "_id" = u !! "_id" →
  coll_wf (Database (<[name := <[i := u']> (collection st name)]> (colls st))
                    (next_oid st)) name.
Proof.
  intros [Hiss Hnd] Hi Hid. unfold coll_wf.
  rewrite collection_insert_eq. cbn [next_oid]. split.
  - apply Forall_insert; [done|]. rewrite Forall_forall in Hiss.
    assert (Hu : id_issued (next_oid st) u).
    { apply Hiss. by apply list_elem_of_lookup_2 with i. }
    unfold id_issued in *. by rewrite Hid.
  - by rewrite (ids_insert _ i u).
Qed.

(** They survive the insert of one document under the next identifier. *)
Lemma coll_wf_append (st : database) (name : string)
    (d : gmap string value) :
  coll_wf st name →
  coll_wf (Database
             (<[name := (collection st name
                         ++ [<["_id" := VObjectId (next_oid st)]> d])%list]>
                (colls st))
             (next_oid st + 1)) name.
Proof. apply (coll_wf_insert_many st name name [d]). Qed.

(** After [send_otp] returns there is a user with the phone, and exactly
    one if there was at most one before. *)
Lemma send_otp_registers (p : SendOtpRequest) (st : database) (n : nat) :
  coll_wf st "user" →
  strip (send_phone p) ≠ "" →
  ∃ st1 n1 i,
    send_otp p (World (Some st) n) = (Ok otp_sent, World (Some st1) n1)
    ∧ coll_wf st1 "user"
    ∧ first_at (matches [("phone", VStr (strip (send_phone p)))])
               (collection st1 "user") i
    ∧ ((length (users_with_phone (strip (send_phone p)) st) ≤ 1)%nat
       → length (users_with_phone (strip (send_phone p)) st1) = 1%nat).
Proof.
  intros Hwf Hp.
  set (phone := strip (send_phone p)) in *.
  destruct (List.find (matches [("phone", VStr phone)]) (collection st "user"))
    as [u|] eqn:Hfind.
  - destruct (find_Some_lookup _ _ _ Hfind) as (i & Hi & Hm & Hlt).
    assert (Hfirst : first_at (matches [("phone", VStr phone)])
                              (collection st "user") i) by (exists u; done).
    set (u' := <["last_login" := VStr (isoformat (utcnow n))]>
                 (<["is_verified" := VBool false]> u)).
    assert (Hphone : u' !! "phone" = u !! "phone").
    { unfold u'. by rewrite !lookup_insert_ne. }
    assert (Hm' : matches [("phone", VStr phone)] u' = true).
    { rewrite matches_single, Hphone, <- matches_single. done. }
    eexists _, _, i. split; [by apply send_otp_existing|].
    split; [apply coll_wf_update with u; [done..|]|].
    { unfold u'. by rewrite !lookup_insert_ne. }
    split.
    { rewrite collection_insert_eq. by apply first_at_insert. }
    intros Hone. unfold users_with_phone in *.
    rewrite collection_insert_eq.
    rewrite (filter_insert_length _ _ i u); [|done|].
    2:{ cbn beta. by rewrite !lookup_insert_ne. }
    assert (Hin : u ∈ filter (λ d, d !! "phone" = Some (VStr phone))
                             (collection st "user")).
    { apply list_elem_of_filter. split.
      - rewrite matches_single in Hm. by apply bool_decide_eq_true in Hm.
      - by apply list_elem_of_lookup_2 with i. }
    destruct (filter _ (collection st "user")) as [|? [|? ?]]; cbn in *;
      [by apply not_elem_of_nil in Hin | done | lia].
  - set (new := <["_id" := VObjectId (next_oid st)]>
        ({[ "phone" := VStr phone; "name" := VNone;
            "is_verified" := VBool false;
            "last_login" := VStr (isoformat (utcnow n));
            "created_at" := VDatetime (utcnow (S n));
            "updated_at" := VDatetime (utcnow (S (S n))) ]}
         : gmap string value)).
    assert (Hphone : new !! "phone" = Some (VStr phone)) by reflexivity.
    eexists _, _, (length (collection st "user")).
    split; [by apply send_otp_new|].
    split; [by apply coll_wf_append|]. fold new.
    split.
    { rewrite collection_insert_eq. exists new. split.
      - by rewrite lookup_app_r, Nat.sub_diag.
      - split; [by rewrite matches_single, bool_decide_true|].
        intros j y Hj. rewrite lookup_app_l by done. intros Hy.
        destruct (matches _ y) eqn:Ey; [|done].
        assert (Hsome : List.find (matches [("phone", VStr phone)])
                                  (collection st "user") ≠ None).
        { intros Hnone. eapply find_none in Hnone.
          - by rewrite Ey in Hnone.
          - apply list_elem_of_In. by apply list_elem_of_lookup_2 with j. }
        done. }
    intros _. unfold users_with_phone. rewrite collection_insert_eq.
    rewrite filter_app, (filter_find_None _ _ _ Hfind).
    by rewrite filter_cons_True by done.
Qed.

(** ** Verifying the code *)

(** [verify_otp] with the right code for a phone that has a user: the first
    user with this phone is updated in place and returned, normalized. *)
Lemma verify_otp_found (v : VerifyOtpRequest) (st : database) (n : nat)
    (u : gmap string value) (i : nat) :
  coll_wf st "user" →
  verify_otp_code v = "1234" →
  collection st "user" !! i = Some u →
  first_at (matches [("phone", VStr (strip (verify_phone v)))])
           (collection st "user") i →
  let u' := <["updated_at" := VDatetime (utcnow n)]>
              (<["is_verified" := VBool true]> u) in
  verify_otp v (World (Some st) n)
  = (Ok {| verify_success := true;
           verify_user := Some (stringify <$> rename_id u') |},
     World (Some (Database
       (<["user" := <[i := u']> (collection st "user")]> (colls st))
       (next_oid st))) (S n)).
Proof.
  intros [Hiss Hnd] Hotp Hi (u0 & Hi' & Hm & Hlt) u'.
  assert (u0 = u) as -> by congruence.
  assert (Hfind := find_first_lookup _ _ _ _ Hi Hm Hlt).
  assert (Hin : u ∈ collection st "user") by by apply list_elem_of_lookup_2 with i.
  rewrite Forall_forall in Hiss. specialize (Hiss u Hin). unfold id_issued in Hiss.
  destruct (u !! "_id") as [uid|] eqn:Eid; [|done].
  unfold verify_otp. run. cbn [db]. rewrite bool_decide_false by (by rewrite Hotp; intros []).
  run. rewrite Hfind. cbn [truthy default from_option id].
  rewrite (matches_truthy _ _ _ Hm). cbn [negb].
  run. unfold getitem. rewrite Eid. run.
  rewrite collection_insert_eq.
  rewrite find_update_first.
  2:{ intros d. rewrite !matches_single. cbn. by rewrite !lookup_insert_ne. }
  rewrite (find_by_id_unique _ i u) by done. cbn [fmap option_fmap option_map].
  rewrite to_str_id_opt_ok. run.
  by rewrite (update_first_by_id _ _ i u).
Qed.

(** After [send_otp] returns, the first user under the trimmed phone is
    unverified. *)
Lemma send_otp_leaves_unverified (p : SendOtpRequest) (st : database)
    (n : nat) :
  coll_wf st "user" →
  strip (send_phone p) ≠ "" →
  ∃ st1 n1 i u,
    send_otp p (World (Some st) n) = (Ok otp_sent, World (Some st1) n1)
    ∧ coll_wf st1 "user"
    ∧ collection st1 "user" !! i = Some u
    ∧ first_at (matches [("phone", VStr (strip (send_phone p)))])
               (collection st1 "user") i
    ∧ u !! "is_verified" = Some (VBool false).
Proof.
  intros Hwf Hp.
  set (phone := strip (send_phone p)) in *.
  destruct (List.find (matches [("phone", VStr phone)]) (collection st "user"))
    as [u|] eqn:Hfind.
  - destruct (find_Some_lookup _ _ _ Hfind) as (i & Hi & Hm & Hlt).
    assert (Hfirst : first_at (matches [("phone", VStr phone)])
                              (collection st "user") i) by (exists u; done).
    set (u' := <["last_login" := VStr (isoformat (utcnow n))]>
                 (<["is_verified" := VBool false]> u)).
    assert (Hm' : matches [("phone", VStr phone)] u' = true).
    { rewrite matches_single in *. unfold u'. by rewrite !lookup_insert_ne. }
    eexists _, _, i, u'. split; [by apply send_otp_existing|].
    split; [apply coll_wf_update with u; [done..|]|].
    { unfold u'. by rewrite !lookup_insert_ne. }
    rewrite collection_insert_eq. split.
    { apply list_lookup_insert_eq. by apply lookup_lt_Some with u. }
    split; [by apply first_at_insert|].
    unfold u'. rewrite lookup_insert_ne by done. apply lookup_insert_eq.
  - set (new := <["_id" := VObjectId (next_oid st)]>
        ({[ "phone" := VStr phone; "name" := VNone;
            "is_verified" := VBool false;
            "last_login" := VStr (isoformat (utcnow n));
            "created_at" := VDatetime (utcnow (S n));
            "updated_at" := VDatetime (utcnow (S (S n))) ]}
         : gmap string value)).
    eexists _, _, (length (collection st "user")), new.
    split; [by apply send_otp_new|].
    split; [by apply coll_wf_append|]. fold new.
    rewrite collection_insert_eq.
    assert (Hnew : (collection st "user" ++ [new])%list
                     !! length (collection st "user")
                   = Some new) by (by rewrite lookup_app_r, Nat.sub_diag).
    split; [exact Hnew|]. split; [|reflexivity].
    exists new. split; [exact Hnew|].
    split; [by rewrite matches_single, bool_decide_true|].
    intros j y Hj. rewrite lookup_app_l by done. intros Hy.
    destruct (matches _ y) eqn:Ey; [|done].
    eapply find_none in Hfind.
    + by rewrite Ey in Hfind.
    + apply list_elem_of_In. by apply list_elem_of_lookup_2 with j.
Qed.

(** What [send_otp] and then [verify_otp] with the code "1234" do, for two
    phone strings of the same trimmed form: the first user under the
    trimmed phone after [send_otp] is the one that [verify_otp] writes to
    and returns, normalized. *)
Lemma send_then_verify_run (st : database) (n : nat) (phone phone' : string) :
  coll_wf st "user" →
  strip phone ≠ "" →
  strip phone' = strip phone →
  ∃ st1 n1 i u,
    send_otp {| send_phone := phone |} (World (Some st) n)
    = (Ok otp_sent, World (Some st1) n1)
    ∧ collection st1 "user" !! i = Some u
    ∧ first_at (matches [("phone", VStr (strip phone))]) (collection st1 "user") i
    ∧ u !! "is_verified" = Some (VBool false)
    ∧ let u' := <["updated_at" := VDatetime (utcnow n1)]>
                  (<["is_verified" := VBool true]> u) in
      verify_otp {| verify_phone := phone'; verify_otp_code := "1234" |}
                 (World (Some st1) n1)
      = (Ok {| verify_success := true;
               verify_user := Some (stringify <$> rename_id u') |},
         World (Some (Database
           (<["user" := <[i := u']> (collection st1 "user")]> (colls st1))
           (next_oid st1))) (S n1)).
Proof.
  intros Hwf Hp Hsame.
  destruct (send_otp_leaves_unverified {| send_phone := phone |} st n Hwf Hp)
    as (st1 & n1 & i & u & Hsend & Hwf1 & Hi & Hfirst & Hunv).
  cbn [send_phone] in *.
  exists st1, n1, i, u. split; [exact Hsend|]. split; [exact Hi|].
  split; [exact Hfirst|]. split; [exact Hunv|].
  apply (verify_otp_found _ st1 n1 u i); try done.
  cbn [verify_phone]. by rewrite Hsame.
Qed.

(** C1: with the store available and in a state the store guarantees, for
    a phone that is not empty after trimming, [send_otp] returns, leaving a
    first user [u] under the trimmed phone, unverified; [verify_otp] with
    the same phone and the code "1234" then returns, the user collection
    after it is the one before it with [u] replaced by [u] with
    [is_verified] true and [updated_at] the time of the call, a lookup by
    the trimmed phone finds that user, and the record returned is that user
    normalized by [to_str_id], so it has [is_verified] true and the trimmed
    phone. *)
Theorem send_then_verify (w : world) (st : database) (phone : string) :
  db w = Some st →
  coll_wf st "user" →
  strip phone ≠ "" →
  ∃ w1 st1 w2 st2 i u user,
    send_otp {| send_phone := phone |} w = (Ok otp_sent, w1)
    ∧ db w1 = Some st1
    ∧ collection st1 "user" !! i = Some u
    ∧ List.find (matches [("phone", VStr (strip phone))]) (collection st1 "user")
      = Some u
    ∧ u !! "is_verified" = Some (VBool false)
    ∧ verify_otp {| verify_phone := phone; verify_otp_code := "1234" |} w1
      = (Ok {| verify_success := true; verify_user := Some user |}, w2)
    ∧ db w2 = Some st2
    ∧ let u' := <["updated_at" := VDatetime (utcnow (ticks w1))]>
                  (<["is_verified" := VBool true]> u) in
      collection st2 "user" = <[i := u']> (collection st1 "user")
      ∧ List.find (matches [("phone", VStr (strip phone))])
                  (collection st2 "user") = Some u'
      ∧ to_str_id u' = Ok user
      ∧ user !! "is_verified" = Some (VBool true)
      ∧ user !! "phone" = Some (VStr (strip phone)).
Proof.
  destruct w as [d n]. cbn [db]. intros -> Hwf Hp.
  destruct (send_then_verify_run st n phone phone Hwf Hp eq_refl)
    as (st1 & n1 & i & u & Hsend & Hi & Hfirst & Hunv & Hverify).
  destruct (Hfirst) as (u0 & Hi0 & Hm & Hlt).
  assert (u0 = u) as -> by congruence.
  assert (Hphone : u !! "phone" = Some (VStr (strip phone))).
  { rewrite matches_single in Hm. by apply bool_decide_eq_true in Hm. }
  eexists _, st1, _, _, i, u, _.
  split; [exact Hsend|]. split; [done|]. split; [exact Hi|].
  split; [by apply find_first_lookup with i|]. split; [exact Hunv|].
  split; [exact Hverify|]. cbn [db ticks]. split; [done|].
  rewrite collection_insert_eq. split; [done|]. split.
  { apply find_first_lookup with i.
    - apply list_lookup_insert_eq. by apply lookup_lt_Some with u.
    - rewrite matches_single. apply bool_decide_eq_true.
      by rewrite !lookup_insert_ne.
    - intros j y Hj. rewrite list_lookup_insert_ne by lia. by apply Hlt. }
  split; [apply to_str_id_eq|].
  assert (Hk : ∀ k x, k ≠ "_id" → k ≠ "id" →
            (stringify <$> rename_id x) !! k = stringify <$> x !! k).
  { intros k x ??. rewrite lookup_fmap. f_equal. unfold rename_id.
    destruct (x !! "_id"); [|done].
    rewrite lookup_insert_ne by done. by rewrite lookup_delete_ne. }
  rewrite !Hk by done. split.
  - rewrite lookup_insert_ne by done. by rewrite lookup_insert_eq.
  - rewrite !lookup_insert_ne by done. by rewrite Hphone.
Qed.

(** C3: with the store available and in a state the store guarantees, for
    a phone that is not empty after trimming, two calls of [send_otp] both
    return, and the second one writes to a user that the first one left:
    the user collection after it is the collection before it with the first
    user of that phone updated in place, [is_verified] set to false and
    [last_login] to the time of the call.  No document is added, and if at
    most one user had the phone at the start, that user is the only one
    with the phone at the end. *)
Theorem send_otp_twice (w : world) (st : database) (phone : string) :
  db w = Some st →
  coll_wf st "user" →
  strip phone ≠ "" →
  ∃ r1 w1 st1 r2 w2 st2 i u,
    send_otp {| send_phone := phone |} w = (Ok r1, w1)
    ∧ db w1 = Some st1
    ∧ send_otp {| send_phone := phone |} w1 = (Ok r2, w2)
    ∧ db w2 = Some st2
    ∧ collection st1 "user" !! i = Some u
    ∧ u !! "phone" = Some (VStr (strip phone))
    ∧ let u' := <["last_login" := VStr (isoformat (utcnow (ticks w1)))]>
                  (<["is_verified" := VBool false]> u) in
      collection st2 "user" = <[i := u']> (collection st1 "user")
      ∧ length (collection st2 "user") = length (collection st1 "user")
      ∧ ((length (users_with_phone (strip phone) st) ≤ 1)%nat
         → users_with_phone (strip phone) st2 = [u']).
Proof.
  destruct w as [d n]. cbn [db]. intros -> Hwf Hp.
  destruct (send_otp_registers {| send_phone := phone |} st n Hwf Hp)
    as (st1 & n1 & i & Hsend & Hwf1 & Hfirst & Hone).
  cbn [send_phone] in *.
  destruct (Hfirst) as (u & Hi & Hm & Hlt).
  assert (Hphone : u !! "phone" = Some (VStr (strip phone))).
  { rewrite matches_single in Hm. by apply bool_decide_eq_true in Hm. }
  eexists _, _, st1, _, _, _, i, u.
  split; [exact Hsend|]. split; [done|].
  split; [by apply (send_otp_existing {| send_phone := phone |} st1 n1 u i)|].
  cbn [db ticks]. split; [done|]. split; [done|]. split; [done|].
  rewrite collection_insert_eq. split; [done|].
  split; [by rewrite length_insert|].
  intros Hle. specialize (Hone Hle).
  unfold users_with_phone in *. rewrite collection_insert_eq.
  assert (Hphone' : (<["last_login" := VStr (isoformat (utcnow n1))]>
                       (<["is_verified" := VBool false]> u)) !! "phone"
                    = Some (VStr (strip phone))).
  { by rewrite !lookup_insert_ne. }
  apply filter_singleton with i; [| |done].
  - rewrite (filter_insert_length _ _ i u); [done..|]. by rewrite Hphone'.
  - apply list_lookup_insert_eq. by apply lookup_lt_Some with u.
Qed.

End Properties.

(** * Further properties of the handlers *)

Section Handlers.
Context `{RT : Runtime}.

(** ** Reading handlers *)

Lemma preserves_read_any {A} (I : world → Prop) (f : database → result A) :
  preserves I (on_db (λ st, (f st, st))).
Proof. intros [[st|] n] Hw; exact Hw. Qed.

Lemma preserves_datetime_now_db (P : option database → Prop) :
  preserves (db_inv P) datetime_now.
Proof. intros [d n] Hw. exact Hw. Qed.

(** Break a handler into its operations, for a property of the store; the
    writes are left to the caller. *)
Ltac keeps_db :=
  repeat first
    [ apply preserves_bind; [|intros ?]
    | apply preserves_datetime_now_db
    | apply (preserves_read_any _ (λ st, Ok _))
    | apply preserves_try_except
    | apply preserves_for_each; intros ?
    | apply preserves_pure; reflexivity
    | match goal with
      | |- preserves _ (match ?x with _ => _ end) => destruct x
      end ].

(** Run a handler operation by operation. *)
Ltac run :=
  repeat (first [ rewrite bind_run | rewrite ret_run | rewrite lift_run
                | rewrite raise_run | rewrite get_db_run
                | rewrite datetime_now_run | rewrite find_one_run
                | rewrite find_run | rewrite count_documents_run
                | rewrite update_one_run | rewrite insert_many_run ];
          cbv beta iota).

Ltac unfold_handlers :=
  unfold seed_data, send_otp, verify_otp, list_restaurants, get_restaurant,
    get_restaurant_products, list_products, get_product, find_by_path_id,
    insert_one, find, find_one, count_documents.

(** X1: the five reading handlers leave the process state as it is,
    whether they return or raise. *)
Theorem reading_handlers_write_nothing (w : world) (path_id : string) :
  (list_restaurants w).2 = w
  ∧ (list_products w).2 = w
  ∧ (get_restaurant path_id w).2 = w
  ∧ (get_product path_id w).2 = w
  ∧ (get_restaurant_products path_id w).2 = w.
Proof.
  assert (Hkeep : ∀ A (m : M A), preserves (λ w', w' = w) m → (m w).2 = w)
    by (intros A m Hm; by apply Hm).
  repeat match goal with |- _ ∧ _ => split end; apply Hkeep;
    unfold_handlers; keeps_db.
Qed.

(** ** Requesting a code: refusals and frame *)

(** X2: with the store available, a phone that is empty after trimming is
    refused with [HTTPException 400 "Phone is required"] before the store is
    read. *)
Theorem send_otp_blank_phone (w : world) (st : database) (p : SendOtpRequest) :
  db w = Some st →
  strip (send_phone p) = "" →
  send_otp p w = (Raise (HTTPException 400 "Phone is required"), w).
Proof.
  intros Hdb Hp. unfold send_otp. rewrite bind_run, get_db_run, Hdb.
  by rewrite bool_decide_true.
Qed.

(** X3: a call of [send_otp] that raises has written nothing to the
    store. *)
Theorem send_otp_failure_keeps_store (w w' : world) (p : SendOtpRequest)
    (e : exn) :
  send_otp p w = (Raise e, w') → db w' = db w.
Proof.
  destruct w as [[st|] n]; unfold send_otp; rewrite bind_run, get_db_run;
    cbn [db]; [|by intros [= _ <-]].
  case_bool_decide; [by intros [= _ <-]|].
  rewrite bind_run, find_one_run. cbv beta iota.
  rewrite bind_run, datetime_now_run. cbv beta iota.
  rewrite bind_run.
  destruct (truthy _) eqn:Ht.
  - rewrite bind_run, lift_run.
    destruct (getitem _ "_id") as [uid|e'] eqn:Eid; [|by intros [= _ <-]].
    rewrite update_one_run. by rewrite ret_run.
  - run. unfold insert_one. run. done.
Qed.

Lemma update_first_length (flt sets : list (string * value))
    (l : list (gmap string value)) :
  length (update_first flt sets l) = length l.
Proof.
  induction l as [|d l IH]; [done|]. cbn -[matches].
  destruct (matches flt d); cbn; by rewrite ?IH.
Qed.

(** X4: [send_otp] and [verify_otp] write to the user collection only:
    whatever they answer, the store is still there and every other
    collection holds what it held. *)
Theorem auth_handlers_write_users_only (w : world) (st : database)
    (p : SendOtpRequest) (v : VerifyOtpRequest) :
  db w = Some st →
  (∃ st', db (send_otp p w).2 = Some st'
          ∧ ∀ name, name ≠ "user" → collection st' name = collection st name)
  ∧ (∃ st', db (verify_otp v w).2 = Some st'
            ∧ ∀ name, name ≠ "user" → collection st' name = collection st name).
Proof.
  intros Hdb.
  set (P := λ d : option database,
         ∃ st', d = Some st'
                ∧ ∀ name, name ≠ "user" → collection st' name = collection st name).
  assert (Hw : db_inv P w) by (exists st; done).
  assert (Hins : ∀ docs, preserves (db_inv P) (insert_many "user" docs)).
  { intros docs [[st0|] n] (st' & [= <-] & Hst'); rewrite insert_many_run.
    eexists. split; [done|]. intros name Hne.
    rewrite collection_insert_ne by done. by apply Hst'. }
  assert (Hupd : ∀ flt sets, preserves (db_inv P) (update_one "user" flt sets)).
  { intros flt sets [[st0|] n] (st' & [= <-] & Hst'); rewrite update_one_run.
    eexists. split; [done|]. intros name Hne.
    rewrite collection_insert_ne by done. by apply Hst'. }
  split.
  - assert (Hk : preserves (db_inv P) (send_otp p)); [|by apply Hk].
    unfold_handlers; keeps_db; (apply Hins || apply Hupd).
  - assert (Hk : preserves (db_inv P) (verify_otp v)); [|by apply Hk].
    unfold_handlers; keeps_db; apply Hupd.
Qed.

(** ** Verifying a code: unknown phone, repetition *)

(** X5: with the store available and the right code, a phone under which
    no user is registered gives [HTTPException 404 "User not found"], and
    nothing is written. *)
Theorem verify_otp_unknown_phone (w : world) (st : database)
    (v : VerifyOtpRequest) :
  db w = Some st →
  verify_otp_code v = "1234" →
  users_with_phone (strip (verify_phone v)) st = [] →
  verify_otp v w = (Raise (HTTPException 404 "User not found"), w).
Proof.
  destruct w as [d n]. cbn [db]. intros -> Hotp Hnone. unfold verify_otp.
  run. cbn [db]. rewrite bool_decide_false by (by rewrite Hotp; intros []).
  run. rewrite find_no_match; [done|].
  intros u Hu. rewrite matches_single. apply bool_decide_eq_false. intros Hphone.
  assert (Hin : u ∈ users_with_phone (strip (verify_phone v)) st).
  { by apply list_elem_of_filter. }
  rewrite Hnone in Hin. by apply not_elem_of_nil in Hin.
Qed.

(** X6: [verify_otp] never adds or removes a user: whatever it answers,
    the user collection has the length it had. *)
Theorem verify_otp_keeps_user_count (w : world) (st : database)
    (v : VerifyOtpRequest) :
  db w = Some st →
  ∃ st', db (verify_otp v w).2 = Some st'
         ∧ length (collection st' "user") = length (collection st "user").
Proof.
  intros Hdb.
  set (P := λ d : option database,
         ∃ st', d = Some st'
                ∧ length (collection st' "user") = length (collection st "user")).
  assert (Hw : db_inv P w) by (exists st; done).
  assert (Hk : preserves (db_inv P) (verify_otp v)); [|by apply Hk].
  unfold_handlers; keeps_db.
  intros [[st0|] n] (st' & [= <-] & Hst'); rewrite update_one_run.
  eexists. split; [done|].
  by rewrite collection_insert_eq, update_first_length.
Qed.

(** X7: with the store's guarantees and a phone that is not empty after
    trimming, [send_otp] adds exactly one user when none is registered
    under the trimmed phone, and none otherwise. *)
Theorem send_otp_inserts_iff_new (w : world) (st : database)
    (p : SendOtpRequest) :
  db w = Some st →
  coll_wf st "user" →
  strip (send_phone p) ≠ "" →
  ∃ st', db (send_otp p w).2 = Some st'
         ∧ length (collection st' "user")
           = (length (collection st "user")
              + if decide (users_with_phone (strip (send_phone p)) st = [])
                then 1 else 0)%nat.
Proof.
  destruct w as [d n]. cbn [db]. intros -> Hwf Hp.
  destruct (List.find (matches [("phone", VStr (strip (send_phone p)))])
                      (collection st "user")) as [u|] eqn:Hfind.
  - destruct (find_Some_lookup _ _ _ Hfind) as (i & Hi & Hm & Hlt).
    rewrite (send_otp_existing p st n u i) by (done || by exists u).
    eexists. split; [done|]. rewrite collection_insert_eq, length_insert.
    rewrite decide_False; [lia|]. intros Hnone.
    assert (Hin : u ∈ users_with_phone (strip (send_phone p)) st).
    { apply list_elem_of_filter. split.
      - rewrite matches_single in Hm. by apply bool_decide_eq_true in Hm.
      - by apply list_elem_of_lookup_2 with i. }
    rewrite Hnone in Hin. by apply not_elem_of_nil in Hin.
  - rewrite send_otp_new by done. eexists. split; [done|].
    rewrite collection_insert_eq, length_app. cbn [length].
    rewrite decide_True; [done|]. by apply filter_find_None.
Qed.

(** X8: a new code request withdraws a verification.  With the store's
    guarantees and a phone that is not empty after trimming, [send_otp],
    [verify_otp] with the code "1234" and [send_otp] again all return, and
    the user that a lookup by the trimmed phone then finds has
    [is_verified] false. *)
Theorem send_otp_resets_verification (w : world) (st : database)
    (phone : string) :
  db w = Some st →
  coll_wf st "user" →
  strip phone ≠ "" →
  ∃ r1 w1 r2 w2 r3 w3 st3 u,
    send_otp {| send_phone := phone |} w = (Ok r1, w1)
    ∧ verify_otp {| verify_phone := phone; verify_otp_code := "1234" |} w1
      = (Ok r2, w2)
    ∧ send_otp {| send_phone := phone |} w2 = (Ok r3, w3)
    ∧ db w3 = Some st3
    ∧ List.find (matches [("phone", VStr (strip phone))]) (collection st3 "user")
      = Some u
    ∧ u !! "is_verified" = Some (VBool false).
Proof.
  destruct w as [d n]. cbn [db]. intros -> Hwf Hp.
  destruct (send_otp_registers {| send_phone := phone |} st n Hwf Hp)
    as (st1 & n1 & i & Hsend & Hwf1 & Hfirst & _).
  cbn [send_phone] in *.
  destruct (Hfirst) as (u1 & Hi & Hm & Hlt).
  set (u2 := <["updated_at" := VDatetime (utcnow n1)]>
               (<["is_verified" := VBool true]> u1)).
  set (st2 := Database (<["user" := <[i := u2]> (collection st1 "user")]> (colls st1))
                       (next_oid st1)).
  assert (Hm2 : matches [("phone", VStr (strip phone))] u2 = true).
  { rewrite matches_single in *. unfold u2. by rewrite !lookup_insert_ne. }
  assert (Hwf2 : coll_wf st2 "user").
  { apply coll_wf_update with u1; [done..|]. unfold u2.
    by rewrite !lookup_insert_ne. }
  assert (Hfirst2 : first_at (matches [("phone", VStr (strip phone))])
                             (collection st2 "user") i).
  { unfold st2. rewrite collection_insert_eq. by apply first_at_insert. }
  assert (Hi2 : collection st2 "user" !! i = Some u2).
  { unfold st2. rewrite collection_insert_eq. apply list_lookup_insert_eq.
    by apply lookup_lt_Some with u1. }
  eexists _, _, _, _, _, _, _, _. split; [exact Hsend|]. split.
  { by apply (verify_otp_found _ st1 n1 u1 i). }
  fold u2 st2. split.
  { by apply (send_otp_existing {| send_phone := phone |} st2 (S n1) u2 i). }
  cbn [db]. split; [done|]. rewrite collection_insert_eq. split.
  - destruct Hfirst2 as (u2' & Hi2' & _ & Hlt2).
    apply find_first_lookup with i.
    + apply list_lookup_insert_eq. by apply lookup_lt_Some with u2.
    + rewrite matches_single in *. by rewrite !lookup_insert_ne.
    + intros j y Hj. rewrite list_lookup_insert_ne by lia. by apply Hlt2.
  - rewrite lookup_insert_ne by done. apply lookup_insert_eq.
Qed.


(** ** The seed routine: repetition and stores that were seeded by hand *)

Lemma collection_insert_other (name name' : string)
    (c : list (gmap string value))
    (cs : gmap string (list (gmap string value))) (o o' : N) :
  name ≠ name' →
  collection (Database (<[name := c]> cs) o) name'
  = collection (Database cs o') name'.
Proof. intros. unfold collection. cbn. by rewrite lookup_insert_ne. Qed.

Lemma seed_data_nothing_to_do (st : database) (n : nat) :
  collection st "restaurant" ≠ [] →
  collection st "product" ≠ [] →
  seed_data (World (Some st) n) = (Ok tt, World (Some st) n).
Proof.
  intros Hr Hp. unfold seed_data. run. cbn [db]. run.
  destruct (collection st "restaurant") as [|r rs]; [done|].
  cbn [length Nat.eqb]. run.
  destruct (collection st "product") as [|q qs]; [done|].
  cbn [length Nat.eqb]. by run.
Qed.

(** What [seed_data] does to the products when there are restaurants. *)
Lemma seed_data_products_only (st : database) (n : nat) :
  collection st "restaurant" ≠ [] →
  collection st "product" = [] →
  seed_data (World (Some st) n)
  = match name_to_id (collection st "restaurant") with
    | Ok rest_ids =>
        (Ok tt,
         World (Some (Database
           (<["product" :=
               assign_ids (next_oid st)
                 (products rest_ids (utcnow n) (utcnow (S n))
                    (utcnow (S (S n))) (utcnow (S (S (S n))))
                    (utcnow (S (S (S (S n))))) (utcnow (S (S (S (S (S n)))))))]>
              (colls st))
           (next_oid st + 3))) (S (S (S (S (S (S n)))))))
    | Raise e => (Raise e, World (Some st) n)
    end.
Proof.
  intros Hr Hp. unfold seed_data. run. cbn [db]. run.
  destruct (collection st "restaurant") as [|r rs] eqn:Er; [done|].
  cbn [length Nat.eqb]. run. rewrite Hp. cbn [length Nat.eqb]. run.
  rewrite Er, filter_matches_all.
  destruct (name_to_id (r :: rs)) as [rest_ids|e]; [|done].
  run. by rewrite Hp.
Qed.

(** X10: the seed routine is idempotent: after a run that returned, a
    second run returns without writing anything, whatever the store held
    before the first. *)
Theorem seed_data_twice (w w1 : world) :
  seed_data w = (Ok tt, w1) → seed_data w1 = (Ok tt, w1).
Proof.
  destruct w as [[st|] n]; [|by intros [= <-]].
  destruct (collection st "product") as [|q qs] eqn:Ep;
    destruct (collection st "restaurant") as [|r rs] eqn:Er.
  - unfold seed_data at 1. run. cbn [db]. run. rewrite Er.
    cbn [length Nat.eqb]. run.
    rewrite collection_insert_ne, Ep by done. cbn [length Nat.eqb].
    run. rewrite collection_insert_eq, filter_matches_all.
    rewrite Er, app_nil_l, name_to_id_restaurants. run.
    rewrite collection_insert_ne, Ep, app_nil_l by done.
    intros [= <-]. apply seed_data_nothing_to_do.
    + rewrite (collection_insert_other _ _ _ _ _ 0) by done.
      by rewrite collection_insert_eq.
    + by rewrite collection_insert_eq.
  - rewrite seed_data_products_only by (done || by rewrite Er).
    destruct (name_to_id _) as [rest_ids|e]; [|done].
    intros [= <-]. apply seed_data_nothing_to_do.
    + by rewrite collection_insert_ne, Er.
    + by rewrite collection_insert_eq.
  - unfold seed_data at 1. run. cbn [db]. run. rewrite Er.
    cbn [length Nat.eqb]. run.
    rewrite collection_insert_ne, Ep by done. cbn [length Nat.eqb]. run.
    intros [= <-]. apply seed_data_nothing_to_do.
    + by rewrite collection_insert_eq, Er.
    + by rewrite collection_insert_ne, Ep.
  - rewrite seed_data_nothing_to_do by (by rewrite ?Er, ?Ep).
    intros [= <-]. apply seed_data_nothing_to_do; by rewrite ?Er, ?Ep.
Qed.

Lemma find_all_false {A} (f : A → bool) (l : list A) :
  (∀ x, x ∈ l → f x = false) → List.find f l = None.
Proof.
  induction l as [|a l IH]; intros Hl; [done|]. cbn.
  rewrite (Hl a) by left. apply IH. intros x Hx. apply Hl. by right.
Qed.

Lemma dict_get_absent (k : value) (rest_ids : list (value * value)) :
  (∀ kv, kv ∈ rest_ids → kv.1 ≠ k) → dict_get k rest_ids = VNone.
Proof.
  intros Hno. unfold dict_get. rewrite find_all_false; [done|].
  intros kv Hkv. rewrite elem_of_reverse in Hkv. apply bool_decide_eq_false.
  exact (Hno kv Hkv).
Qed.

Lemma name_to_id_names (l : list (gmap string value)) :
  Forall (λ d, is_Some (d !! "_id")
               ∧ ∃ v, d !! "name" = Some v ∧ hashable v = true) l →
  ∃ rest_ids,
    name_to_id l = Ok rest_ids
    ∧ ∀ kv, kv ∈ rest_ids → ∃ d, d ∈ l ∧ d !! "name" = Some kv.1.
Proof.
  induction 1 as [|d l ([uid Hid] & v & Hname & Hhash) _ (ids' & Hids & Hkeys)].
  - exists []. split; [done|]. by intros kv ?%not_elem_of_nil.
  - exists ((v, uid) :: ids'). split.
    + cbn [name_to_id]. unfold getitem. rewrite Hname, Hid. cbn.
      rewrite Hhash, Hids. done.
    + intros kv [->|Hkv]%elem_of_cons.
      * exists d. split; [left|done].
      * destruct (Hkeys kv Hkv) as (d' & Hd' & Hn). exists d'.
        split; [by right|done].
Qed.

(** X11: on a store that has restaurants but no products, and no
    restaurant under either of the two seed names, [seed_data] leaves the
    restaurants as they are and inserts the three products with the string
    "None" as [restaurant_id]. *)
Theorem seed_data_unknown_names (w : world) (st : database) :
  db w = Some st →
  collection st "restaurant" ≠ [] →
  collection st "product" = [] →
  Forall (λ d, is_Some (d !! "_id")
               ∧ ∃ v, d !! "name" = Some v ∧ hashable v = true
                      ∧ v ≠ VStr "Spice Garden" ∧ v ≠ VStr "Pasta Piazza")
         (collection st "restaurant") →
  ∃ w' st' p1 p2 p3,
    seed_data w = (Ok tt, w')
    ∧ db w' = Some st'
    ∧ collection st' "restaurant" = collection st "restaurant"
    ∧ collection st' "product" = [p1; p2; p3]
    ∧ p1 !! "restaurant_id" = Some (VStr "None")
    ∧ p2 !! "restaurant_id" = Some (VStr "None")
    ∧ p3 !! "restaurant_id" = Some (VStr "None").
Proof.
  destruct w as [d n]. cbn [db]. intros -> Hr Hp Hall.
  destruct (name_to_id_names (collection st "restaurant")) as (ids' & Hids & Hkeys).
  { eapply Forall_impl; [exact Hall|]. intros x (? & v & ? & ? & _). eauto. }
  assert (Habsent : ∀ s, s = "Spice Garden" ∨ s = "Pasta Piazza"
                         → dict_get (VStr s) ids' = VNone).
  { intros s Hs. apply dict_get_absent. intros kv Hkv Heq.
    destruct (Hkeys kv Hkv) as (x & Hx & Hname).
    rewrite Forall_forall in Hall.
    destruct (Hall x Hx) as (_ & v & Hv & _ & H1 & H2).
    rewrite Hname in Hv. injection Hv as <-. rewrite Heq in H1, H2.
    destruct Hs as [->| ->]; congruence. }
  rewrite seed_data_products_only, Hids by done.
  eexists _, _, _, _, _. split; [done|]. split; [done|].
  split; [by rewrite collection_insert_ne|].
  rewrite collection_insert_eq. split; [reflexivity|].
  unfold products.
  rewrite !(Habsent "Spice Garden"), !(Habsent "Pasta Piazza") by auto.
  repeat split.
Qed.

Lemma name_to_id_nameless (l : list (gmap string value))
    (d : gmap string value) :
  d ∈ l → d !! "name" = None → ∃ e, name_to_id l = Raise e.
Proof.
  intros Hin Hname. induction l as [|x l IH]; [by apply not_elem_of_nil in Hin|].
  cbn [name_to_id]. unfold getitem.
  destruct (x !! "name") as [v|] eqn:Ex; [|by eexists].
  destruct (x !! "_id") as [uid|]; [|by eexists]. cbn.
  destruct (hashable v); [|by eexists].
  apply elem_of_cons in Hin as [->|Hin]; [congruence|].
  destruct (IH Hin) as [e He]. rewrite He. by eexists.
Qed.

(** X12: on a store that has no products and a restaurant without a
    [name], [seed_data] raises while it maps names to identifiers, and
    nothing has been written. *)
Theorem seed_data_nameless_restaurant (w : world) (st : database)
    (d : gmap string value) :
  db w = Some st →
  collection st "product" = [] →
  d ∈ collection st "restaurant" →
  d !! "name" = None →
  ∃ e, seed_data w = (Raise e, w).
Proof.
  destruct w as [o n]. cbn [db]. intros -> Hp Hin Hname.
  assert (Hr : collection st "restaurant" ≠ []).
  { intros Heq. rewrite Heq in Hin. by apply not_elem_of_nil in Hin. }
  destruct (name_to_id_nameless _ d Hin Hname) as [e He].
  exists e. by rewrite seed_data_products_only, He.
Qed.

(** ** What [to_str_id] returns *)

(** X13: the result of [to_str_id] is in normal form: it has no [_id]
    field, none of its values is an ObjectId, and its [id] is the string of
    the [_id] the document had, replacing any [id] field of the document;
    without an [_id], [id] is the document's own. *)
Theorem to_str_id_normal_form (doc : gmap string value) :
  ∃ d, to_str_id doc = Ok d
       ∧ d !! "_id" = None
       ∧ map_Forall (λ _ v, is_ObjectId v = false) d
       ∧ d !! "id" = match doc !! "_id" with
                     | Some v => Some (VStr (py_str v))
                     | None => stringify <$> doc !! "id"
                     end.
Proof.
  exists (stringify <$> rename_id doc). split; [apply to_str_id_eq|].
  split; [by rewrite lookup_fmap, rename_id_no_id|]. split.
  - intros k v. rewrite lookup_fmap.
    destruct (rename_id doc !! k) as [x|]; [|done]. cbn. intros [= <-].
    apply stringify_not_ObjectId.
  - rewrite lookup_fmap. unfold rename_id.
    destruct (doc !! "_id") as [v|]; [|done].
    by rewrite lookup_insert_eq.
Qed.

(** X14: [to_str_id] loses no field: the result has the field names of the
    document, with [_id] replaced by [id]. *)
Theorem to_str_id_field_names (doc : gmap string value) :
  ∃ d, to_str_id doc = Ok d
       ∧ dom d = if decide ("_id" ∈ dom doc)
                 then {["id"]} ∪ dom doc ∖ {["_id"]}
                 else dom doc.
Proof.
  exists (stringify <$> rename_id doc). split; [apply to_str_id_eq|].
  rewrite dom_fmap_L. unfold rename_id. case_decide as Hid.
  - apply elem_of_dom in Hid as [v Hv]. rewrite Hv.
    by rewrite dom_insert_L, dom_delete_L.
  - apply not_elem_of_dom in Hid. by rewrite Hid.
Qed.

(** X15: on an empty dict [to_str_id] makes no copy: it returns the
    reference it was given, and the heap is untouched. *)
Theorem to_str_id_ref_empty (h : heap) (doc : positive) :
  h !! doc = Some ∅ → to_str_id_ref doc h = (Ok doc, h).
Proof.
  intros Hdoc. unfold to_str_id_ref, ref_truthy.
  by rewrite !bind_run, (deref_run doc ∅).
Qed.

(** ** Detail handlers: documents that are found *)

Lemma find_by_path_id_found (name path_id : string) (st : database)
    (n : nat) (d : gmap string value) :
  coll_wf st name →
  d ∈ collection st name →
  (ObjectId_is_valid path_id = true
   ∧ ∃ o, ObjectId_parse path_id = Some o ∧ d !! "_id" = Some (VObjectId o))
  ∨ (ObjectId_is_valid path_id = false ∧ d !! "_id" = Some (VStr path_id)) →
  find_by_path_id name path_id (World (Some st) n)
  = (Ok (Some d), World (Some st) n).
Proof.
  intros [_ Hnd] [i Hi]%list_elem_of_lookup_1 Hid.
  unfold find_by_path_id, try_except.
  destruct Hid as [(-> & o & -> & Hid)|[-> Hid]].
  - rewrite bind_run, lift_run, find_one_run.
    by rewrite (find_by_id_unique _ i d).
  - rewrite find_one_run. by rewrite (find_by_id_unique _ i d).
Qed.

Lemma has_id_truthy (d : gmap string value) :
  is_Some (d !! "_id") → dict_truthy d = true.
Proof.
  intros [v Hv]. apply bool_decide_eq_true. intros ->.
  by rewrite lookup_empty in Hv.
Qed.


(** X17: a path identifier that is a valid ObjectId is looked up as an
    ObjectId only: when no document has the parsed identifier, the answer is
    404 even if a document has the very string as its identifier. *)
Theorem valid_id_no_literal_fallback (w : world) (st : database)
    (path_id : string) :
  db w = Some st →
  ObjectId_is_valid path_id = true →
  ((∀ d o, d ∈ collection st "restaurant" → ObjectId_parse path_id = Some o
           → d !! "_id" ≠ Some (VObjectId o)) →
   get_restaurant path_id w
   = (Raise (HTTPException 404 "Restaurant not found"), w))
  ∧ ((∀ d o, d ∈ collection st "product" → ObjectId_parse path_id = Some o
             → d !! "_id" ≠ Some (VObjectId o)) →
     get_product path_id w
     = (Raise (HTTPException 404 "Product not found"), w)).
Proof.
  destruct w as [x n]. cbn [db]. intros -> Hvalid.
  assert (Hnone : ∀ name,
    (∀ d o, d ∈ collection st name → ObjectId_parse path_id = Some o
            → d !! "_id" ≠ Some (VObjectId o)) →
    find_by_path_id name path_id (World (Some st) n)
    = (Ok None, World (Some st) n)).
  { intros name Hno. unfold find_by_path_id, try_except. rewrite Hvalid.
    rewrite bind_run, lift_run.
    destruct (ObjectId_parse path_id) as [o|] eqn:Eo; [|done].
    rewrite find_one_run, find_all_false; [done|].
    intros d Hd. rewrite matches_single. apply bool_decide_eq_false.
    by apply Hno. }
  split; intros Hno; unfold get_restaurant, get_product;
    rewrite bind_run, get_db_run; cbn [db];
    by rewrite bind_run, Hnone.
Qed.

(** ** Listing: products of a restaurant, malformed documents *)

Lemma for_each_lift_Ok {A B} (g : A → result B) (xs : list A)
    (rs : list B) (w w' : world) :
  for_each (λ x, lift (g x)) xs w = (Ok rs, w') →
  w' = w ∧ Forall2 (λ x r, g x = Ok r) xs rs.
Proof.
  revert rs. induction xs as [|x xs IH]; intros rs; cbn [for_each].
  - rewrite ret_run. intros [= <- <-]. split; [done|constructor].
  - rewrite bind_run, lift_run. destruct (g x) as [r|e] eqn:Ex; [|done].
    rewrite bind_run.
    destruct (for_each (λ x, lift (g x)) xs w) as [[rs'|e] w''] eqn:Exs; [|done].
    rewrite ret_run. intros [= <- <-].
    destruct (IH rs' eq_refl) as [-> Hall]. split; [done|]. by constructor.
Qed.

Lemma for_each_lift_Raise {A B} (g : A → result B) (xs : list A) (x : A)
    (e : exn) (w : world) :
  x ∈ xs → g x = Raise e →
  ∃ x' e', x' ∈ xs ∧ g x' = Raise e'
           ∧ for_each (λ x, lift (g x)) xs w = (Raise e', w).
Proof.
  intros Hin Hx. induction xs as [|y xs IH]; [by apply not_elem_of_nil in Hin|].
  cbn [for_each]. rewrite bind_run, lift_run.
  destruct (g y) as [r|e'] eqn:Ey.
  - apply elem_of_cons in Hin as [->|Hin]; [congruence|].
    destruct (IH Hin) as (x' & e' & Hx' & Hg & Hrun).
    exists x', e'. split; [by right|]. split; [done|].
    by rewrite bind_run, Hrun.
  - exists y, e'. split; [left|]. done.
Qed.

Lemma new_ProductOut_restaurant_id (d : gmap string value)
    (r : ProductOut.t) (s : string) :
  d !! "restaurant_id" = Some (VStr s) →
  to_str_id d ≫= new_ProductOut = Ok r →
  ProductOut.restaurant_id r = Some s.
Proof.
  intros Hd. rewrite to_str_id_eq. cbn [mbind result_bind].
  assert (Hrid : (stringify <$> rename_id d) !! "restaurant_id" = Some (VStr s)).
  { rewrite (to_str_id_lookup d) by (done || apply to_str_id_eq).
    by rewrite Hd. }
  unfold new_ProductOut. generalize dependent (stringify <$> rename_id d).
  intros dd Hrid.
  destruct (field_str dd "id"); [|done]. cbn.
  destruct (field_str dd "title"); [|done]. cbn.
  destruct (field_opt_str dd "description"); [|done]. cbn.
  destruct (field_float dd "price"); [|done]. cbn.
  destruct (field_opt_str dd "image"); [|done]. cbn.
  unfold field_opt_str. rewrite Hrid. cbn.
  destruct (field_tags dd "tags"); [|done]. cbn.
  by intros [= <-].
Qed.

(** X18: when [get_restaurant_products] returns, it returns one record for
    each product whose [restaurant_id] is the path string, each carrying
    that string as [restaurant_id], and the store is as it was. *)
Theorem get_restaurant_products_filters (w w' : world) (st : database)
    (restaurant_id : string) (rs : list ProductOut.t) :
  db w = Some st →
  get_restaurant_products restaurant_id w = (Ok rs, w') →
  w' = w
  ∧ length rs
    = length (filter (λ d, d !! "restaurant_id" = Some (VStr restaurant_id))
                     (collection st "product"))
  ∧ Forall (λ r, ProductOut.restaurant_id r = Some restaurant_id) rs.
Proof.
  destruct w as [x n]. cbn [db]. intros ->. unfold get_restaurant_products.
  rewrite bind_run, get_db_run. cbn [db]. rewrite bind_run, find_run.
  intros [-> Hall]%for_each_lift_Ok. split; [done|].
  assert (Hflt : filter (λ d, matches [("restaurant_id", VStr restaurant_id)] d = true)
                        (collection st "product")
                 = filter (λ d, d !! "restaurant_id" = Some (VStr restaurant_id))
                          (collection st "product")).
  { apply list_filter_iff. intros d. rewrite matches_single.
    apply bool_decide_eq_true. }
  rewrite Hflt in Hall. split; [symmetry; by eapply Forall2_length|].
  apply Forall_forall. intros r [i Hi]%list_elem_of_lookup_1.
  destruct (Forall2_lookup_r _ _ _ _ _ Hall Hi) as (d & Hd & Hr).
  apply list_elem_of_lookup_2, list_elem_of_filter in Hd as [Hrid _].
  by apply (new_ProductOut_restaurant_id d).
Qed.

(** X19: with the store available, [get_restaurant_products] for a string
    that no product carries as [restaurant_id] returns the empty list; it
    never answers 404, whether or not a restaurant has that identifier. *)
Theorem get_restaurant_products_unknown (w : world) (st : database)
    (restaurant_id : string) :
  db w = Some st →
  (∀ d, d ∈ collection st "product"
        → d !! "restaurant_id" ≠ Some (VStr restaurant_id)) →
  get_restaurant_products restaurant_id w = (Ok [], w).
Proof.
  destruct w as [x n]. cbn [db]. intros -> Hno. unfold get_restaurant_products.
  rewrite bind_run, get_db_run. cbn [db]. rewrite bind_run, find_run.
  assert (Hflt : filter (λ d, matches [("restaurant_id", VStr restaurant_id)] d = true)
                        (collection st "product") = []).
  { rewrite (list_filter_iff _
      (λ d, d !! "restaurant_id" = Some (VStr restaurant_id)))
      by (intros d; rewrite matches_single; apply bool_decide_eq_true).
    apply filter_find_None, find_all_false. intros d Hd.
    rewrite matches_single. apply bool_decide_eq_false. by apply Hno. }
  by rewrite Hflt.
Qed.

Lemma field_str_raise (d : gmap string value) (k : string) (e : exn) :
  field_str d k = Raise e → e = ValidationError k.
Proof. unfold field_str. destruct (d !! k) as [[]|]; by intros [= <-]. Qed.

Lemma field_opt_str_raise (d : gmap string value) (k : string) (e : exn) :
  field_opt_str d k = Raise e → e = ValidationError k.
Proof. unfold field_opt_str. destruct (d !! k) as [[]|]; by intros [= <-]. Qed.

Lemma field_opt_float_raise (d : gmap string value) (k : string) (e : exn) :
  field_opt_float d k = Raise e → e = ValidationError k.
Proof. unfold field_opt_float. destruct (d !! k) as [[]|]; by intros [= <-]. Qed.

(** X20: one malformed document breaks a listing.  With the store
    available, if some restaurant has no [name], [list_restaurants] raises
    a validation error, which the server answers with status 500, and
    returns no record at all. *)
Theorem list_restaurants_malformed (w : world) (st : database)
    (d : gmap string value) :
  db w = Some st →
  d ∈ collection st "restaurant" →
  d !! "name" = None →
  ∃ field, list_restaurants w = (Raise (ValidationError field), w).
Proof.
  destruct w as [x n]. cbn [db]. intros -> Hin Hname. unfold list_restaurants.
  rewrite bind_run, get_db_run. cbn [db]. rewrite bind_run, find_run.
  rewrite filter_matches_all.
  assert (Hraise : ∀ y e, to_str_id y ≫= new_RestaurantOut = Raise e
                          → ∃ field, e = ValidationError field).
  { intros y e. rewrite to_str_id_eq. cbn [mbind result_bind].
    generalize (stringify <$> rename_id y). intros dd. unfold new_RestaurantOut.
    destruct (field_str dd "id") eqn:E1;
      [|intros [= <-]; by apply field_str_raise in E1 as ->; eexists]. cbn.
    destruct (field_str dd "name") eqn:E2;
      [|intros [= <-]; by apply field_str_raise in E2 as ->; eexists]. cbn.
    destruct (field_opt_str dd "description") eqn:E3;
      [|intros [= <-]; by apply field_opt_str_raise in E3 as ->; eexists]. cbn.
    destruct (field_opt_str dd "address") eqn:E4;
      [|intros [= <-]; by apply field_opt_str_raise in E4 as ->; eexists]. cbn.
    destruct (field_opt_str dd "image") eqn:E5;
      [|intros [= <-]; by apply field_opt_str_raise in E5 as ->; eexists]. cbn.
    destruct (field_opt_float dd "rating") eqn:E6;
      [|intros [= <-]; by apply field_opt_float_raise in E6 as ->; eexists]. cbn.
    destruct (field_opt_str dd "cuisine") eqn:E7;
      [|intros [= <-]; by apply field_opt_str_raise in E7 as ->; eexists]. cbn.
    done. }
  assert (Hd : ∃ e, to_str_id d ≫= new_RestaurantOut = Raise e).
  { rewrite to_str_id_eq. cbn [mbind result_bind].
    assert (Hn : (stringify <$> rename_id d) !! "name" = None).
    { rewrite (to_str_id_lookup d) by (done || apply to_str_id_eq).
      by rewrite Hname. }
    unfold new_RestaurantOut. generalize dependent (stringify <$> rename_id d).
    intros dd Hn. destruct (field_str dd "id"); [|by eexists]. cbn.
    unfold field_str. rewrite Hn. by eexists. }
  destruct Hd as [e He].
  destruct (for_each_lift_Raise (λ y, to_str_id y ≫= new_RestaurantOut)
              _ d e (World (Some st) n) Hin He) as (y & e' & _ & Hy & Hrun).
  destruct (Hraise y e' Hy) as [field ->]. exists field. exact Hrun.
Qed.

(** ** The documents that are written validate against [schemas.py] *)

Lemma new_User_ok (d : gmap string value) :
  conforms new_User d
  ↔ (∃ a, field_str d "phone" = Ok a)
    ∧ (∃ a, field_opt_str d "name" = Ok a)
    ∧ (∃ a, field_bool_default d "is_verified" false = Ok a)
    ∧ (∃ a, field_opt_str d "last_login" = Ok a).
Proof.
  unfold conforms, new_User. split.
  - intros [a Ha].
    destruct (field_str d "phone"); [|done]. cbn in Ha.
    destruct (field_opt_str d "name"); [|done]. cbn in Ha.
    destruct (field_bool_default d "is_verified" false); [|done]. cbn in Ha.
    destruct (field_opt_str d "last_login"); [|done]. eauto 10.
  - intros ([a1 ->] & [a2 ->] & [a3 ->] & [a4 ->]). cbn. eauto.
Qed.

Lemma Forall_update_first (P : gmap string value → Prop)
    (flt sets : list (string * value)) (l : list (gmap string value)) :
  (∀ d, P d → P (apply_set sets d)) →
  Forall P l → Forall P (update_first flt sets l).
Proof.
  intros Hset. induction 1 as [|d l Hd Hl IH]; [constructor|].
  cbn -[matches]. destruct (matches flt d); constructor; auto.
Qed.

(** The two updates of the auth handlers keep a user valid. *)
Lemma conforms_User_update (d : gmap string value) (b : bool) (k : string)
    (v : value) :
  (k = "last_login" ∧ ∃ s, v = VStr s) ∨ k = "updated_at" →
  conforms new_User d →
  conforms new_User (apply_set [("is_verified", VBool b); (k, v)] d).
Proof.
  intros Hk. rewrite !new_User_ok. unfold apply_set. cbn [foldl fst snd].
  unfold field_str, field_opt_str, field_bool_default.
  intros (Hphone & Hname & _ & Hlogin).
  destruct Hk as [[-> [s ->]]| ->];
    repeat (rewrite lookup_insert_eq || rewrite lookup_insert_ne by done);
    repeat split; eauto.
Qed.

(** X21: the auth handlers keep the user collection valid against the
    [User] schema: if every user validates before [send_otp] or
    [verify_otp], every user validates after, whatever the handler
    answers. *)
Theorem auth_handlers_keep_users_valid (w : world) (st : database)
    (p : SendOtpRequest) (v : VerifyOtpRequest) :
  db w = Some st →
  Forall (conforms new_User) (collection st "user") →
  (∃ st', db (send_otp p w).2 = Some st'
          ∧ Forall (conforms new_User) (collection st' "user"))
  ∧ (∃ st', db (verify_otp v w).2 = Some st'
            ∧ Forall (conforms new_User) (collection st' "user")).
Proof.
  intros Hdb Hall.
  set (P := λ d : option database,
         ∃ st', d = Some st' ∧ Forall (conforms new_User) (collection st' "user")).
  assert (Hw : db_inv P w) by (exists st; done).
  assert (Hupd : ∀ flt b k x,
            (k = "last_login" ∧ ∃ s, x = VStr s) ∨ k = "updated_at" →
            preserves (db_inv P)
              (update_one "user" flt [("is_verified", VBool b); (k, x)])).
  { intros flt b k x Hk [[st0|] n] (st' & [= <-] & Hst'); rewrite update_one_run.
    eexists. split; [done|]. rewrite collection_insert_eq.
    apply Forall_update_first; [|done]. intros d. by apply conforms_User_update. }
  split.
  - assert (Hk : preserves (db_inv P) (send_otp p)); [|by apply Hk].
    unfold_handlers; keeps_db.
    + apply Hupd. left. eauto.
    + intros [[st0|] n] (st' & [= <-] & Hst'); rewrite insert_many_run.
      eexists. split; [done|]. rewrite collection_insert_eq.
      apply Forall_app. split; [done|]. apply Forall_singleton.
      eexists. reflexivity.
  - assert (Hk : preserves (db_inv P) (verify_otp v)); [|by apply Hk].
    unfold_handlers; keeps_db. apply Hupd. by right.
Qed.

(** X22: the seed routine writes valid documents: if every restaurant
    validates against the [Restaurant] schema and every product against the
    [Product] schema before [seed_data], they do after, whatever it
    answers. *)
Theorem seed_data_keeps_schemas (w : world) (st : database) :
  db w = Some st →
  Forall (conforms new_Restaurant) (collection st "restaurant") →
  Forall (conforms new_Product) (collection st "product") →
  ∃ st', db (seed_data w).2 = Some st'
         ∧ Forall (conforms new_Restaurant) (collection st' "restaurant")
         ∧ Forall (conforms new_Product) (collection st' "product").
Proof.
  intros Hdb Hr Hp.
  set (P := λ d : option database,
         ∃ st', d = Some st'
                ∧ Forall (conforms new_Restaurant) (collection st' "restaurant")
                ∧ Forall (conforms new_Product) (collection st' "product")).
  assert (Hw : db_inv P w) by (exists st; done).
  assert (Hk : preserves (db_inv P) seed_data); [|by apply Hk].
  unfold_handlers; keeps_db.
  - intros [[st0|] n] (st' & [= <-] & Hr' & Hp'); rewrite insert_many_run.
    eexists. split; [done|]. rewrite collection_insert_eq.
    rewrite collection_insert_ne by done. split; [|done].
    apply Forall_app. split; [done|].
    repeat constructor; eexists; reflexivity.
  - intros [[st0|] n] (st' & [= <-] & Hr' & Hp'); rewrite insert_many_run.
    eexists. split; [done|]. rewrite collection_insert_eq.
    rewrite collection_insert_ne by done. split; [done|].
    apply Forall_app. split; [done|].
    repeat constructor; eexists; reflexivity.
Qed.

(** ** Phones are matched after trimming *)

(** X23: two phone strings with the same trimmed form address the same
    user.  With the store's guarantees, [send_otp] for a phone that is not
    empty after trimming leaves a first user [u] under the trimmed phone;
    [verify_otp] with the code "1234" and any phone of the same trimmed
    form then writes to that very user, setting [is_verified] to true, and
    returns it normalized by [to_str_id]. *)
Theorem verify_otp_matches_trimmed_phone (w : world) (st : database)
    (phone phone' : string) :
  db w = Some st →
  coll_wf st "user" →
  strip phone ≠ "" →
  strip phone' = strip phone →
  ∃ w1 st1 w2 st2 i u user,
    send_otp {| send_phone := phone |} w = (Ok otp_sent, w1)
    ∧ db w1 = Some st1
    ∧ List.find (matches [("phone", VStr (strip phone))]) (collection st1 "user")
      = Some u
    ∧ collection st1 "user" !! i = Some u
    ∧ u !! "is_verified" = Some (VBool false)
    ∧ verify_otp {| verify_phone := phone'; verify_otp_code := "1234" |} w1
      = (Ok {| verify_success := true; verify_user := Some user |}, w2)
    ∧ db w2 = Some st2
    ∧ let u' := <["updated_at" := VDatetime (utcnow (ticks w1))]>
                  (<["is_verified" := VBool true]> u) in
      collection st2 "user" = <[i := u']> (collection st1 "user")
      ∧ to_str_id u' = Ok user
      ∧ user !! "is_verified" = Some (VBool true)
      ∧ user !! "phone" = Some (VStr (strip phone)).
Proof.
  destruct w as [d n]. cbn [db]. intros -> Hwf Hp Hsame.
  destruct (send_then_verify_run st n phone phone' Hwf Hp Hsame)
    as (st1 & n1 & i & u & Hsend & Hi & Hfirst & Hunv & Hverify).
  destruct (Hfirst) as (u0 & Hi0 & Hm & Hlt).
  assert (u0 = u) as -> by congruence.
  assert (Hphone : u !! "phone" = Some (VStr (strip phone))).
  { rewrite matches_single in Hm. by apply bool_decide_eq_true in Hm. }
  eexists _, st1, _, _, i, u, _.
  split; [exact Hsend|]. split; [done|].
  split; [by apply find_first_lookup with i|]. split; [exact Hi|].
  split; [exact Hunv|]. split; [exact Hverify|]. cbn [db ticks].
  split; [done|]. rewrite collection_insert_eq. split; [done|].
  split; [apply to_str_id_eq|].
  assert (Hk : ∀ k x, k ≠ "_id" → k ≠ "id" →
            (stringify <$> rename_id x) !! k = stringify <$> x !! k).
  { intros k x ??. rewrite lookup_fmap. f_equal. unfold rename_id.
    destruct (x !! "_id"); [|done].
    rewrite lookup_insert_ne by done. by rewrite lookup_delete_ne. }
  rewrite !Hk by done. split.
  - rewrite lookup_insert_ne by done. by rewrite lookup_insert_eq.
  - rewrite !lookup_insert_ne by done. by rewrite Hphone.
Qed.

(** ** From a listing to the details *)

Lemma new_RestaurantOut_id (d : gmap string value) (r : RestaurantOut.t)
    (v : value) :
  d !! "_id" = Some v →
  to_str_id d ≫= new_RestaurantOut = Ok r →
  RestaurantOut.id r = py_str v.
Proof.
  intros Hd. rewrite to_str_id_eq. cbn [mbind result_bind].
  assert (Hid : (stringify <$> rename_id d) !! "id" = Some (VStr (py_str v))).
  { rewrite lookup_fmap. unfold rename_id. rewrite Hd.
    by rewrite lookup_insert_eq. }
  unfold new_RestaurantOut. generalize dependent (stringify <$> rename_id d).
  intros dd Hid.
  assert (Hf : field_str dd "id" = Ok (py_str v)) by (unfold field_str; by rewrite Hid).
  rewrite Hf. cbn.
  destruct (field_str dd "name"); [|done]. cbn.
  destruct (field_opt_str dd "description"); [|done]. cbn.
  destruct (field_opt_str dd "address"); [|done]. cbn.
  destruct (field_opt_str dd "image"); [|done]. cbn.
  destruct (field_opt_float dd "rating"); [|done]. cbn.
  destruct (field_opt_str dd "cuisine"); [|done]. cbn.
  by intros [= <-].
Qed.

(** X24: a listed restaurant can be fetched by its listed id.  With the
    store's guarantees, when every restaurant has an ObjectId as identifier
    whose string is valid and parses back to it, every record that
    [list_restaurants] returns is what [get_restaurant] returns for its
    [id]. *)
Theorem list_then_get_restaurant (w : world) (st : database)
    (rs : list RestaurantOut.t) (r : RestaurantOut.t) :
  db w = Some st →
  coll_wf st "restaurant" →
  Forall (λ d, ∃ o, d !! "_id" = Some (VObjectId o)
                    ∧ ObjectId_is_valid (str_ObjectId o) = true
                    ∧ ObjectId_parse (str_ObjectId o) = Some o)
         (collection st "restaurant") →
  list_restaurants w = (Ok rs, w) →
  r ∈ rs →
  get_restaurant (RestaurantOut.id r) w = (Ok r, w).
Proof.
  destruct w as [x n]. cbn [db]. intros -> Hwf Hoids.
  unfold list_restaurants. rewrite bind_run, get_db_run. cbn [db].
  rewrite bind_run, find_run, filter_matches_all.
  intros [_ Hall]%for_each_lift_Ok [i Hi]%list_elem_of_lookup_1.
  destruct (Forall2_lookup_r _ _ _ _ _ Hall Hi) as (d & Hd & Hr).
  apply list_elem_of_lookup_2 in Hd.
  rewrite Forall_forall in Hoids.
  destruct (Hoids d Hd) as (o & Ho & Hvalid & Hparse).
  rewrite (new_RestaurantOut_id d r _ Ho Hr). cbn [py_str].
  unfold get_restaurant. rewrite bind_run, get_db_run. cbn [db].
  rewrite bind_run, (find_by_path_id_found _ _ _ _ d); [|done..|left; eauto].
  cbn [truthy negb default from_option id].
  rewrite has_id_truthy by eauto. cbn [negb]. by rewrite lift_run, Hr.
Qed.

(** X25: after the seed routine on a store without restaurants and
    products, the products of a seeded restaurant are found under its
    stringified identifier: Butter Chicken and Paneer Tikka under Spice
    Garden's, Penne Arrabbiata under Pasta Piazza's, provided the two
    identifiers have different strings. *)
Theorem seed_then_restaurant_products (w : world) (st : database) :
  db w = Some st →
  collection st "restaurant" = [] →
  collection st "product" = [] →
  str_ObjectId (next_oid st) ≠ str_ObjectId (N.succ (next_oid st)) →
  ∃ w1 p1 p2 p3,
    seed_data w = (Ok tt, w1)
    ∧ get_restaurant_products (str_ObjectId (next_oid st)) w1
      = (Ok [p1; p2], w1)
    ∧ get_restaurant_products (str_ObjectId (N.succ (next_oid st))) w1
      = (Ok [p3], w1)
    ∧ ProductOut.title p1 = "Butter Chicken"
    ∧ ProductOut.title p2 = "Paneer Tikka"
    ∧ ProductOut.title p3 = "Penne Arrabbiata".
Proof.
  destruct w as [d n]. cbn [db]. intros -> Hr Hp Hne.
  assert (Hflt : ∀ s (l : list (gmap string value)),
    filter (λ d, matches [("restaurant_id", VStr s)] d = true) l
    = filter (λ d, d !! "restaurant_id" = Some (VStr s)) l).
  { intros s l. apply list_filter_iff. intros x. rewrite matches_single.
    apply bool_decide_eq_true. }
  eexists _, _, _, _. split.
  { unfold seed_data. run. cbn [db]. run. rewrite Hr. cbn [length Nat.eqb].
    run. rewrite collection_insert_ne, Hp by done. cbn [length Nat.eqb].
    run. rewrite collection_insert_eq, filter_matches_all.
    rewrite Hr, app_nil_l, name_to_id_restaurants. run.
    rewrite collection_insert_ne, Hp, app_nil_l by done. reflexivity. }
  split.
  { unfold get_restaurant_products. run. cbn [db]. run.
    rewrite collection_insert_eq, Hflt. cbn [products assign_ids].
    rewrite filter_cons_True by reflexivity.
    rewrite filter_cons_True by reflexivity.
    rewrite filter_cons_False, filter_nil.
    2:{ intros Heq. apply Hne. symmetry.
        change (Some (VStr (str_ObjectId (N.succ (next_oid st))))
                = Some (VStr (str_ObjectId (next_oid st)))) in Heq.
        by injection Heq. }
    reflexivity. }
  split.
  { unfold get_restaurant_products. run. cbn [db]. run.
    rewrite collection_insert_eq, Hflt. cbn [products assign_ids].
    rewrite filter_cons_False.
    2:{ intros Heq. apply Hne.
        change (Some (VStr (str_ObjectId (next_oid st)))
                = Some (VStr (str_ObjectId (N.succ (next_oid st))))) in Heq.
        by injection Heq. }
    rewrite filter_cons_False.
    2:{ intros Heq. apply Hne.
        change (Some (VStr (str_ObjectId (next_oid st)))
                = Some (VStr (str_ObjectId (N.succ (next_oid st))))) in Heq.
        by injection Heq. }
    rewrite filter_cons_True by reflexivity. rewrite filter_nil.
    reflexivity. }
  repeat split.
Qed.

End Handlers.

(** * The properties on the sample store *)

#[local] Existing Instance sample_runtime.

Lemma sample_store_wf : coll_wf sample_store "user".
Proof.
  split.
  - apply Forall_singleton. reflexivity.
  - apply NoDup_singleton.
Defined.

Lemma to_str_id_idempotent_total_witness :
  let doc : gmap string value :=
    {[ "phone" := VStr "555-0100"; "is_verified" := VBool false ]} in
  doc !! "_id" = None
  ∧ (∀ k v, doc !! k = Some v → is_ObjectId v = false)
  ∧ ∃ d, to_str_id doc = Ok d ∧ to_str_id d = Ok d ∧ d = doc.
Proof.
  intros doc.
  assert (Hid : doc !! "_id" = None) by reflexivity.
  assert (Hvals : ∀ k v, doc !! k = Some v → is_ObjectId v = false).
  { intros k v [[_ <-]|[_ [_ <-]%lookup_singleton_Some]]%lookup_insert_Some;
      reflexivity. }
  split; [exact Hid|]. split; [exact Hvals|].
  destruct (to_str_id_idempotent_total doc) as (d & H1 & H2 & H3).
  exists d. split; [exact H1|]. split; [exact H2|]. exact (H3 Hid Hvals).
Defined.

Lemma to_str_id_ref_frame_witness :
  let m : gmap string value :=
    {[ "_id" := VObjectId 255; "owner" := VObjectId 1;
       "name" := VStr "Spice Garden" ]} in
  sample_heap !! 1%positive = Some m
  ∧ m ≠ ∅
  ∧ ∃ d n h',
      to_str_id_ref 1%positive sample_heap = (Ok d, h')
      ∧ to_str_id m = Ok n
      ∧ sample_heap !! d = None ∧ d ≠ 1%positive
      ∧ h' = <[d := n]> sample_heap
      ∧ h' !! 1%positive = Some m.
Proof.
  intros m.
  assert (Hm : sample_heap !! 1%positive = Some m) by reflexivity.
  assert (Hne : m ≠ ∅).
  { intros Heq. apply (f_equal (lookup "_id")) in Heq. discriminate Heq. }
  split; [exact Hm|]. split; [exact Hne|].
  exact (to_str_id_ref_frame sample_heap 1%positive m Hm Hne).
Defined.

Lemma store_unavailable_witness :
  db no_store = None
  ∧ send_otp {| send_phone := "555-0100" |} no_store
    = (Raise (HTTPException 500 "Database not configured"), no_store)
  ∧ verify_otp {| verify_phone := "555-0100"; verify_otp_code := "1234" |} no_store
    = (Raise (HTTPException 500 "Database not configured"), no_store)
  ∧ get_restaurant "00000000000000000000000a" no_store
    = (Raise (HTTPException 404 "Not found"), no_store)
  ∧ get_product "00000000000000000000000a" no_store
    = (Raise (HTTPException 404 "Not found"), no_store)
  ∧ list_restaurants no_store = (Ok [], no_store)
  ∧ list_products no_store = (Ok [], no_store)
  ∧ get_restaurant_products "00000000000000000000000a" no_store
    = (Ok [], no_store).
Proof.
  split; [reflexivity|].
  apply (store_unavailable no_store). reflexivity.
Defined.

(** C5 as it is claimed fails: without a store [get_restaurant] does not
    answer with status 500. *)
Lemma get_restaurant_unavailable_not_500 :
  ¬ ∃ e w',
      get_restaurant "00000000000000000000000a" no_store = (Raise e, w')
      ∧ status_of e = 500%nat.
Proof.
  intros (e & w' & Hrun & Hstatus).
  change (get_restaurant "00000000000000000000000a" no_store)
    with (Raise (A:=RestaurantOut.t) (HTTPException 404 "Not found"), no_store)
    in Hrun.
  injection Hrun as <- _. discriminate Hstatus.
Qed.

Lemma verify_otp_wrong_code_witness :
  let payload := {| verify_phone := "555-0100"; verify_otp_code := "0000" |} in
  db sample_world = Some sample_store
  ∧ verify_otp_code payload ≠ "1234"
  ∧ verify_otp payload sample_world
    = (Raise (HTTPException 400 "Invalid OTP"), sample_world).
Proof.
  intros payload.
  assert (Hotp : verify_otp_code payload ≠ "1234") by discriminate.
  split; [reflexivity|]. split; [exact Hotp|].
  exact (verify_otp_wrong_code sample_world sample_store payload eq_refl Hotp).
Defined.

Lemma verify_otp_failure_writes_nothing_witness :
  let payload := {| verify_phone := "unknown"; verify_otp_code := "1234" |} in
  verify_otp payload sample_world
  = (Raise (HTTPException 404 "User not found"), sample_world)
  ∧ sample_world = sample_world.
Proof.
  intros payload.
  assert (Hrun : verify_otp payload sample_world
                 = (Raise (HTTPException 404 "User not found"), sample_world))
    by (vm_compute; reflexivity).
  split; [exact Hrun|].
  exact (verify_otp_failure_writes_nothing _ _ _ _ Hrun).
Defined.

Lemma seed_data_idempotent_witness :
  db sample_world = Some sample_store
  ∧ collection sample_store "restaurant" ≠ []
  ∧ collection sample_store "product" ≠ []
  ∧ seed_data sample_world = (Ok tt, sample_world).
Proof.
  assert (Hr : collection sample_store "restaurant" ≠ []) by discriminate.
  assert (Hp : collection sample_store "product" ≠ []) by discriminate.
  split; [reflexivity|]. split; [exact Hr|]. split; [exact Hp|].
  exact (seed_data_idempotent sample_world sample_store eq_refl Hr Hp).
Defined.

Lemma seed_then_list_witness :
  let st := Database ∅ 10 in
  db empty_world = Some st
  ∧ collection st "restaurant" = []
  ∧ collection st "product" = []
  ∧ ∃ w1 r1 r2 p1 p2 p3,
      seed_data empty_world = (Ok tt, w1)
      ∧ list_restaurants w1 = (Ok [r1; r2], w1)
      ∧ list_products w1 = (Ok [p1; p2; p3], w1)
      ∧ RestaurantOut.name r1 = "Spice Garden"
      ∧ RestaurantOut.name r2 = "Pasta Piazza"
      ∧ RestaurantOut.id r1 = py_str (VObjectId (next_oid st))
      ∧ RestaurantOut.id r2 = py_str (VObjectId (N.succ (next_oid st)))
      ∧ ProductOut.restaurant_id p1 = Some (RestaurantOut.id r1)
      ∧ ProductOut.restaurant_id p2 = Some (RestaurantOut.id r1)
      ∧ ProductOut.restaurant_id p3 = Some (RestaurantOut.id r2).
Proof.
  intros st. split; [reflexivity|]. split; [reflexivity|].
  split; [reflexivity|].
  exact (seed_then_list empty_world st eq_refl eq_refl eq_refl).
Defined.

Lemma detail_unknown_id_404_witness :
  db sample_world = Some sample_store
  ∧ (∀ d, d ∈ collection sample_store "restaurant" → ¬ id_matches "spice-garden" d)
  ∧ (∀ d, d ∈ collection sample_store "product" → ¬ id_matches "spice-garden" d)
  ∧ get_restaurant "spice-garden" sample_world
    = (Raise (HTTPException 404 "Restaurant not found"), sample_world)
  ∧ get_product "spice-garden" sample_world
    = (Raise (HTTPException 404 "Product not found"), sample_world).
Proof.
  assert (Hparse : ∀ o, ObjectId_parse "spice-garden" ≠ Some o) by discriminate.
  assert (Hr : ∀ d, d ∈ collection sample_store "restaurant"
                    → ¬ id_matches "spice-garden" d).
  { intros d Hd [Hid|(o & Ho & _)]; [|by apply (Hparse o)].
    change (collection sample_store "restaurant")
      with (assign_ids 10 (restaurants 0 1 2 3)) in Hd.
    apply list_elem_of_In in Hd. destruct Hd as [<-|[<-|[]]]; discriminate Hid. }
  assert (Hp : ∀ d, d ∈ collection sample_store "product"
                    → ¬ id_matches "spice-garden" d).
  { intros d Hd [Hid|(o & Ho & _)]; [|by apply (Hparse o)].
    apply list_elem_of_In in Hd. destruct Hd as [<-|[]]; discriminate Hid. }
  split; [reflexivity|]. split; [exact Hr|]. split; [exact Hp|].
  destruct (detail_unknown_id_404 sample_world sample_store "spice-garden" eq_refl)
    as [H1 H2].
  split; [exact (H1 Hr) | exact (H2 Hp)].
Defined.

Lemma send_then_verify_witness :
  db sample_world = Some sample_store
  ∧ coll_wf sample_store "user"
  ∧ strip "  555-0199 " ≠ ""
  ∧ ∃ w1 st1 w2 st2 i u user,
      send_otp {| send_phone := "  555-0199 " |} sample_world = (Ok otp_sent, w1)
      ∧ db w1 = Some st1
      ∧ collection st1 "user" !! i = Some u
      ∧ List.find (matches [("phone", VStr (strip "  555-0199 "))])
                  (collection st1 "user") = Some u
      ∧ u !! "is_verified" = Some (VBool false)
      ∧ verify_otp {| verify_phone := "  555-0199 "; verify_otp_code := "1234" |} w1
        = (Ok {| verify_success := true; verify_user := Some user |}, w2)
      ∧ db w2 = Some st2
      ∧ let u' := <["updated_at" := VDatetime (utcnow (ticks w1))]>
                    (<["is_verified" := VBool true]> u) in
        collection st2 "user" = <[i := u']> (collection st1 "user")
        ∧ List.find (matches [("phone", VStr (strip "  555-0199 "))])
                    (collection st2 "user") = Some u'
        ∧ to_str_id u' = Ok user
        ∧ user !! "is_verified" = Some (VBool true)
        ∧ user !! "phone" = Some (VStr (strip "  555-0199 ")).
Proof.
  assert (Hp : strip "  555-0199 " ≠ "") by discriminate.
  split; [reflexivity|]. split; [exact sample_store_wf|]. split; [exact Hp|].
  exact (send_then_verify sample_world sample_store "  555-0199 "
           eq_refl sample_store_wf Hp).
Defined.

(** C3 as it is claimed, for every phone string, fails on a blank phone:
    both calls are refused before the store is touched, and the user
    registered under that phone is not set to unverified. *)
Lemma send_otp_twice_blank_phone :
  ¬ ∃ w1 w2 st2 u,
      (send_otp {| send_phone := "" |} blank_world).2 = w1
      ∧ (send_otp {| send_phone := "" |} w1).2 = w2
      ∧ db w2 = Some st2
      ∧ u ∈ users_with_phone "" st2
      ∧ u !! "is_verified" = Some (VBool false).
Proof.
  intros (w1 & w2 & st2 & u & <- & <- & Hdb & Hu & Hv).
  change (send_otp {| send_phone := "" |} blank_world)
    with (Raise (A:=gmap string value) (HTTPException 400 "Phone is required"),
          blank_world) in Hdb.
  injection Hdb as <-.
  change (users_with_phone "" _) with [blank_user] in Hu.
  apply list_elem_of_singleton in Hu as ->. discriminate Hv.
Qed.

Lemma send_otp_twice_witness :
  db sample_world = Some sample_store
  ∧ coll_wf sample_store "user"
  ∧ strip "555-0100" ≠ ""
  ∧ (length (users_with_phone (strip "555-0100") sample_store) ≤ 1)%nat
  ∧ ∃ r1 w1 st1 r2 w2 st2 i u,
      send_otp {| send_phone := "555-0100" |} sample_world = (Ok r1, w1)
      ∧ db w1 = Some st1
      ∧ send_otp {| send_phone := "555-0100" |} w1 = (Ok r2, w2)
      ∧ db w2 = Some st2
      ∧ collection st1 "user" !! i = Some u
      ∧ u !! "phone" = Some (VStr (strip "555-0100"))
      ∧ let u' := <["last_login" := VStr (isoformat (utcnow (ticks w1)))]>
                    (<["is_verified" := VBool false]> u) in
        collection st2 "user" = <[i := u']> (collection st1 "user")
        ∧ length (collection st2 "user") = length (collection st1 "user")
        ∧ ((length (users_with_phone (strip "555-0100") sample_store) ≤ 1)%nat
           → users_with_phone (strip "555-0100") st2 = [u']).
Proof.
  assert (Hp : strip "555-0100" ≠ "") by discriminate.
  split; [reflexivity|]. split; [exact sample_store_wf|]. split; [exact Hp|].
  split; [vm_compute; lia|].
  exact (send_otp_twice sample_world sample_store "555-0100"
           eq_refl sample_store_wf Hp).
Defined.

(** * The further properties on the sample stores *)

Lemma sample_store_wf_restaurant : coll_wf sample_store "restaurant".
Proof.
  split.
  - repeat constructor.
  - change (ids (collection sample_store "restaurant"))
      with [Some (VObjectId 10); Some (VObjectId 11)].
    apply NoDup_cons. split; [|apply NoDup_singleton].
    intros Hin%list_elem_of_singleton. discriminate Hin.
Qed.


Lemma send_otp_blank_phone_witness :
  db sample_world = Some sample_store
  ∧ strip "   " = ""
  ∧ send_otp {| send_phone := "   " |} sample_world
    = (Raise (HTTPException 400 "Phone is required"), sample_world).
Proof.
  split; [reflexivity|]. split; [reflexivity|].
  exact (send_otp_blank_phone sample_world sample_store
           {| send_phone := "   " |} eq_refl eq_refl).
Defined.

Lemma send_otp_failure_keeps_store_witness :
  send_otp {| send_phone := "555-0100" |} keyless_world
  = (Raise (KeyError "_id"), World (db keyless_world) 1)
  ∧ db (World (db keyless_world) 1) = db keyless_world.
Proof.
  assert (Hrun : send_otp {| send_phone := "555-0100" |} keyless_world
                 = (Raise (KeyError "_id"), World (db keyless_world) 1))
    by (vm_compute; reflexivity).
  split; [exact Hrun|].
  exact (send_otp_failure_keeps_store _ _ _ _ Hrun).
Defined.

Lemma auth_handlers_write_users_only_witness :
  let p := {| send_phone := "555-0199" |} in
  let v := {| verify_phone := "555-0100"; verify_otp_code := "1234" |} in
  db sample_world = Some sample_store
  ∧ (∃ st', db (send_otp p sample_world).2 = Some st'
            ∧ ∀ name, name ≠ "user"
                      → collection st' name = collection sample_store name)
  ∧ (∃ st', db (verify_otp v sample_world).2 = Some st'
            ∧ ∀ name, name ≠ "user"
                      → collection st' name = collection sample_store name).
Proof.
  intros p v. split; [reflexivity|].
  exact (auth_handlers_write_users_only sample_world sample_store p v eq_refl).
Defined.

Lemma verify_otp_unknown_phone_witness :
  let v := {| verify_phone := "unknown"; verify_otp_code := "1234" |} in
  db sample_world = Some sample_store
  ∧ verify_otp_code v = "1234"
  ∧ users_with_phone (strip (verify_phone v)) sample_store = []
  ∧ verify_otp v sample_world
    = (Raise (HTTPException 404 "User not found"), sample_world).
Proof.
  intros v.
  assert (Hnone : users_with_phone (strip (verify_phone v)) sample_store = [])
    by reflexivity.
  split; [reflexivity|]. split; [reflexivity|]. split; [exact Hnone|].
  exact (verify_otp_unknown_phone sample_world sample_store v
           eq_refl eq_refl Hnone).
Defined.

Lemma verify_otp_keeps_user_count_witness :
  let v := {| verify_phone := "555-0100"; verify_otp_code := "1234" |} in
  db sample_world = Some sample_store
  ∧ ∃ st', db (verify_otp v sample_world).2 = Some st'
           ∧ length (collection st' "user")
             = length (collection sample_store "user").
Proof.
  intros v. split; [reflexivity|].
  exact (verify_otp_keeps_user_count sample_world sample_store v eq_refl).
Defined.

Lemma send_otp_inserts_iff_new_witness :
  let p := {| send_phone := " 555-0199" |} in
  db sample_world = Some sample_store
  ∧ coll_wf sample_store "user"
  ∧ strip (send_phone p) ≠ ""
  ∧ ∃ st', db (send_otp p sample_world).2 = Some st'
           ∧ length (collection st' "user")
             = (length (collection sample_store "user")
                + if decide (users_with_phone (strip (send_phone p)) sample_store = [])
                  then 1 else 0)%nat.
Proof.
  intros p.
  assert (Hp : strip (send_phone p) ≠ "") by discriminate.
  split; [reflexivity|]. split; [exact sample_store_wf|]. split; [exact Hp|].
  exact (send_otp_inserts_iff_new sample_world sample_store p
           eq_refl sample_store_wf Hp).
Defined.

Lemma send_otp_resets_verification_witness :
  db sample_world = Some sample_store
  ∧ coll_wf sample_store "user"
  ∧ strip "555-0100" ≠ ""
  ∧ ∃ r1 w1 r2 w2 r3 w3 st3 u,
      send_otp {| send_phone := "555-0100" |} sample_world = (Ok r1, w1)
      ∧ verify_otp {| verify_phone := "555-0100"; verify_otp_code := "1234" |} w1
        = (Ok r2, w2)
      ∧ send_otp {| send_phone := "555-0100" |} w2 = (Ok r3, w3)
      ∧ db w3 = Some st3
      ∧ List.find (matches [("phone", VStr (strip "555-0100"))])
                  (collection st3 "user") = Some u
      ∧ u !! "is_verified" = Some (VBool false).
Proof.
  assert (Hp : strip "555-0100" ≠ "") by discriminate.
  split; [reflexivity|]. split; [exact sample_store_wf|]. split; [exact Hp|].
  exact (send_otp_resets_verification sample_world sample_store "555-0100"
           eq_refl sample_store_wf Hp).
Defined.


Lemma seed_data_twice_witness :
  let w1 := (seed_data empty_world).2 in
  seed_data empty_world = (Ok tt, w1) ∧ seed_data w1 = (Ok tt, w1).
Proof.
  intros w1.
  assert (Hrun : seed_data empty_world = (Ok tt, w1)) by reflexivity.
  split; [exact Hrun|]. exact (seed_data_twice empty_world w1 Hrun).
Defined.

Lemma seed_data_unknown_names_witness :
  let st := Database {[ "restaurant" := [diner] ]} 4 in
  db diner_world = Some st
  ∧ collection st "restaurant" ≠ []
  ∧ collection st "product" = []
  ∧ Forall (λ d, is_Some (d !! "_id")
                 ∧ ∃ v, d !! "name" = Some v ∧ hashable v = true
                        ∧ v ≠ VStr "Spice Garden" ∧ v ≠ VStr "Pasta Piazza")
           (collection st "restaurant")
  ∧ ∃ w' st' p1 p2 p3,
      seed_data diner_world = (Ok tt, w')
      ∧ db w' = Some st'
      ∧ collection st' "restaurant" = collection st "restaurant"
      ∧ collection st' "product" = [p1; p2; p3]
      ∧ p1 !! "restaurant_id" = Some (VStr "None")
      ∧ p2 !! "restaurant_id" = Some (VStr "None")
      ∧ p3 !! "restaurant_id" = Some (VStr "None").
Proof.
  intros st.
  assert (Hr : collection st "restaurant" ≠ []) by discriminate.
  assert (Hall : Forall (λ d, is_Some (d !! "_id")
                   ∧ ∃ v, d !! "name" = Some v ∧ hashable v = true
                          ∧ v ≠ VStr "Spice Garden" ∧ v ≠ VStr "Pasta Piazza")
                        (collection st "restaurant")).
  { apply Forall_singleton. split; [by eexists|].
    exists (VStr "Corner Diner"). repeat split; discriminate. }
  split; [reflexivity|]. split; [exact Hr|]. split; [reflexivity|].
  split; [exact Hall|].
  exact (seed_data_unknown_names diner_world st eq_refl Hr eq_refl Hall).
Defined.

Lemma seed_data_nameless_restaurant_witness :
  let st := Database {[ "restaurant" := [diner; nameless] ]} 4 in
  db nameless_world = Some st
  ∧ collection st "product" = []
  ∧ nameless ∈ collection st "restaurant"
  ∧ nameless !! "name" = None
  ∧ ∃ e, seed_data nameless_world = (Raise e, nameless_world).
Proof.
  intros st.
  assert (Hin : nameless ∈ collection st "restaurant").
  { change (nameless ∈ [diner; nameless]). apply elem_of_cons. right.
    apply elem_of_cons. by left. }
  split; [reflexivity|]. split; [reflexivity|]. split; [exact Hin|].
  split; [reflexivity|].
  exact (seed_data_nameless_restaurant nameless_world st nameless
           eq_refl eq_refl Hin eq_refl).
Defined.

Lemma to_str_id_ref_empty_witness :
  empty_dict_heap !! 1%positive = Some ∅
  ∧ to_str_id_ref 1%positive empty_dict_heap = (Ok 1%positive, empty_dict_heap).
Proof.
  split; [reflexivity|].
  exact (to_str_id_ref_empty empty_dict_heap 1%positive eq_refl).
Defined.


Lemma valid_id_no_literal_fallback_witness :
  let st := Database
    {[ "restaurant" := [ ({[ "_id" := VStr "00000000000000000000000a";
                             "name" := VStr "Ghost Kitchen" ]}
                          : gmap string value) ] ]} 1 in
  let s := "00000000000000000000000a" in
  db shadow_world = Some st
  ∧ ObjectId_is_valid s = true
  ∧ (∀ d o, d ∈ collection st "restaurant" → ObjectId_parse s = Some o
            → d !! "_id" ≠ Some (VObjectId o))
  ∧ (∀ d o, d ∈ collection st "product" → ObjectId_parse s = Some o
            → d !! "_id" ≠ Some (VObjectId o))
  ∧ get_restaurant s shadow_world
    = (Raise (HTTPException 404 "Restaurant not found"), shadow_world)
  ∧ get_product s shadow_world
    = (Raise (HTTPException 404 "Product not found"), shadow_world).
Proof.
  intros st s.
  assert (Hr : ∀ d o, d ∈ collection st "restaurant" → ObjectId_parse s = Some o
                      → d !! "_id" ≠ Some (VObjectId o)).
  { intros d o Hd _ Hid. apply list_elem_of_singleton in Hd. subst d.
    discriminate Hid. }
  assert (Hp : ∀ d o, d ∈ collection st "product" → ObjectId_parse s = Some o
                      → d !! "_id" ≠ Some (VObjectId o)).
  { intros d o Hd. by apply not_elem_of_nil in Hd. }
  assert (Hvalid : ObjectId_is_valid s = true) by reflexivity.
  split; [reflexivity|]. split; [exact Hvalid|]. split; [exact Hr|].
  split; [exact Hp|].
  destruct (valid_id_no_literal_fallback shadow_world st s eq_refl Hvalid)
    as [H1 H2].
  split; [exact (H1 Hr) | exact (H2 Hp)].
Defined.

Lemma get_restaurant_products_filters_witness :
  let s := "00000000000000000000000a" in
  let rs := [ProductOut.Make "00000000000000000000000c" "Butter Chicken" None
               12.99 None (Some s) (Some [])] in
  db sample_world = Some sample_store
  ∧ get_restaurant_products s sample_world = (Ok rs, sample_world)
  ∧ sample_world = sample_world
  ∧ length rs
    = length (filter (λ d, d !! "restaurant_id" = Some (VStr s))
                     (collection sample_store "product"))
  ∧ Forall (λ r, ProductOut.restaurant_id r = Some s) rs.
Proof.
  intros s rs.
  assert (Hrun : get_restaurant_products s sample_world = (Ok rs, sample_world))
    by (vm_compute; reflexivity).
  split; [reflexivity|]. split; [exact Hrun|].
  exact (get_restaurant_products_filters sample_world sample_world sample_store
           s rs eq_refl Hrun).
Defined.

Lemma get_restaurant_products_unknown_witness :
  db sample_world = Some sample_store
  ∧ (∀ d, d ∈ collection sample_store "product"
          → d !! "restaurant_id" ≠ Some (VStr "no-such-restaurant"))
  ∧ get_restaurant_products "no-such-restaurant" sample_world
    = (Ok [], sample_world).
Proof.
  assert (Hno : ∀ d, d ∈ collection sample_store "product"
                     → d !! "restaurant_id" ≠ Some (VStr "no-such-restaurant")).
  { intros d Hd Hid. apply list_elem_of_singleton in Hd. subst d.
    discriminate Hid. }
  split; [reflexivity|]. split; [exact Hno|].
  exact (get_restaurant_products_unknown sample_world sample_store _ eq_refl Hno).
Defined.

Lemma list_restaurants_malformed_witness :
  let st := Database {[ "restaurant" := [diner; nameless] ]} 4 in
  db nameless_world = Some st
  ∧ nameless ∈ collection st "restaurant"
  ∧ nameless !! "name" = None
  ∧ ∃ field, list_restaurants nameless_world
             = (Raise (ValidationError field), nameless_world).
Proof.
  intros st.
  assert (Hin : nameless ∈ collection st "restaurant").
  { change (nameless ∈ [diner; nameless]). apply elem_of_cons. right.
    apply elem_of_cons. by left. }
  split; [reflexivity|]. split; [exact Hin|]. split; [reflexivity|].
  exact (list_restaurants_malformed nameless_world st nameless
           eq_refl Hin eq_refl).
Defined.

Lemma auth_handlers_keep_users_valid_witness :
  let p := {| send_phone := "555-0199" |} in
  let v := {| verify_phone := "555-0100"; verify_otp_code := "1234" |} in
  db sample_world = Some sample_store
  ∧ Forall (conforms new_User) (collection sample_store "user")
  ∧ (∃ st', db (send_otp p sample_world).2 = Some st'
            ∧ Forall (conforms new_User) (collection st' "user"))
  ∧ (∃ st', db (verify_otp v sample_world).2 = Some st'
            ∧ Forall (conforms new_User) (collection st' "user")).
Proof.
  intros p v.
  assert (Hall : Forall (conforms new_User) (collection sample_store "user")).
  { apply Forall_singleton. eexists. reflexivity. }
  split; [reflexivity|]. split; [exact Hall|].
  exact (auth_handlers_keep_users_valid sample_world sample_store p v
           eq_refl Hall).
Defined.

Lemma seed_data_keeps_schemas_witness :
  let st := Database {[ "restaurant" := [diner] ]} 4 in
  db diner_world = Some st
  ∧ Forall (conforms new_Restaurant) (collection st "restaurant")
  ∧ Forall (conforms new_Product) (collection st "product")
  ∧ ∃ st', db (seed_data diner_world).2 = Some st'
           ∧ Forall (conforms new_Restaurant) (collection st' "restaurant")
           ∧ Forall (conforms new_Product) (collection st' "product").
Proof.
  intros st.
  assert (Hr : Forall (conforms new_Restaurant) (collection st "restaurant")).
  { apply Forall_singleton. eexists. reflexivity. }
  assert (Hp : Forall (conforms new_Product) (collection st "product"))
    by apply Forall_nil_2.
  split; [reflexivity|]. split; [exact Hr|]. split; [exact Hp|].
  exact (seed_data_keeps_schemas diner_world st eq_refl Hr Hp).
Defined.

Lemma verify_otp_matches_trimmed_phone_witness :
  db sample_world = Some sample_store
  ∧ coll_wf sample_store "user"
  ∧ strip "  555-0199 " ≠ ""
  ∧ strip "555-0199" = strip "  555-0199 "
  ∧ ∃ w1 st1 w2 st2 i u user,
      send_otp {| send_phone := "  555-0199 " |} sample_world = (Ok otp_sent, w1)
      ∧ db w1 = Some st1
      ∧ List.find (matches [("phone", VStr (strip "  555-0199 "))])
                  (collection st1 "user") = Some u
      ∧ collection st1 "user" !! i = Some u
      ∧ u !! "is_verified" = Some (VBool false)
      ∧ verify_otp {| verify_phone := "555-0199"; verify_otp_code := "1234" |} w1
        = (Ok {| verify_success := true; verify_user := Some user |}, w2)
      ∧ db w2 = Some st2
      ∧ let u' := <["updated_at" := VDatetime (utcnow (ticks w1))]>
                    (<["is_verified" := VBool true]> u) in
        collection st2 "user" = <[i := u']> (collection st1 "user")
        ∧ to_str_id u' = Ok user
        ∧ user !! "is_verified" = Some (VBool true)
        ∧ user !! "phone" = Some (VStr (strip "  555-0199 ")).
Proof.
  assert (Hp : strip "  555-0199 " ≠ "") by discriminate.
  split; [reflexivity|]. split; [exact sample_store_wf|]. split; [exact Hp|].
  split; [reflexivity|].
  exact (verify_otp_matches_trimmed_phone sample_world sample_store
           "  555-0199 " "555-0199" eq_refl sample_store_wf Hp eq_refl).
Defined.

Lemma list_then_get_restaurant_witness :
  db sample_world = Some sample_store
  ∧ coll_wf sample_store "restaurant"
  ∧ Forall (λ d, ∃ o, d !! "_id" = Some (VObjectId o)
                      ∧ ObjectId_is_valid (str_ObjectId o) = true
                      ∧ ObjectId_parse (str_ObjectId o) = Some o)
           (collection sample_store "restaurant")
  ∧ ∃ rs r,
      list_restaurants sample_world = (Ok rs, sample_world)
      ∧ r ∈ rs
      ∧ get_restaurant (RestaurantOut.id r) sample_world = (Ok r, sample_world).
Proof.
  assert (Hoids : Forall (λ d, ∃ o, d !! "_id" = Some (VObjectId o)
                      ∧ ObjectId_is_valid (str_ObjectId o) = true
                      ∧ ObjectId_parse (str_ObjectId o) = Some o)
                    (collection sample_store "restaurant")).
  { apply Forall_cons. split; [exists 10%N; repeat split|].
    apply Forall_singleton. exists 11%N. repeat split. }
  split; [reflexivity|]. split; [exact sample_store_wf_restaurant|].
  split; [exact Hoids|].
  pose (run := list_restaurants sample_world).
  assert (Hrun : ∃ r rs', run = (Ok (r :: rs'), sample_world))
    by (eexists _, _; vm_compute; reflexivity).
  destruct Hrun as (r & rs' & Hrun). exists (r :: rs'), r.
  assert (Hin : r ∈ r :: rs') by left.
  split; [exact Hrun|]. split; [exact Hin|].
  exact (list_then_get_restaurant sample_world sample_store (r :: rs') r
           eq_refl sample_store_wf_restaurant Hoids Hrun Hin).
Defined.

Lemma seed_then_restaurant_products_witness :
  let st := Database ∅ 10 in
  db empty_world = Some st
  ∧ collection st "restaurant" = []
  ∧ collection st "product" = []
  ∧ str_ObjectId (next_oid st) ≠ str_ObjectId (N.succ (next_oid st))
  ∧ ∃ w1 p1 p2 p3,
      seed_data empty_world = (Ok tt, w1)
      ∧ get_restaurant_products (str_ObjectId (next_oid st)) w1
        = (Ok [p1; p2], w1)
      ∧ get_restaurant_products (str_ObjectId (N.succ (next_oid st))) w1
        = (Ok [p3], w1)
      ∧ ProductOut.title p1 = "Butter Chicken"
      ∧ ProductOut.title p2 = "Paneer Tikka"
      ∧ ProductOut.title p3 = "Penne Arrabbiata".
Proof.
  intros st.
  assert (Hne : str_ObjectId (next_oid st) ≠ str_ObjectId (N.succ (next_oid st)))
    by discriminate.
  split; [reflexivity|]. split; [reflexivity|]. split; [reflexivity|].
  split; [exact Hne|].
  exact (seed_then_restaurant_products empty_world st eq_refl eq_refl eq_refl Hne).
Defined.

Lemma handlers_keep_store_wf_witness :
  let p := {| send_phone := "555-0100" |} in
  let v := {| verify_phone := "555-0100"; verify_otp_code := "1234" |} in
  store_wf empty_world
  ∧ store_wf (seed_data empty_world).2
  ∧ store_wf (send_otp p empty_world).2
  ∧ store_wf (verify_otp v empty_world).2.
Proof.
  intros p v.
  assert (Hwf : store_wf empty_world) by apply empty_store_wf.
  destruct handlers_keep_store_wf as (Hseed & Hsend & Hverify & _).
  split; [exact Hwf|]. split; [exact (Hseed _ Hwf)|].
  split; [exact (Hsend p _ Hwf) | exact (Hverify v _ Hwf)].
Defined.
